(** * A shallow embedding of the ride-sharing system

    The development follows the Python sources [vehicle.py], [ride.py]
    and [users.py].  Objects live in a store of three arenas (riders,
    drivers, rides) and are named by their index, so that the sharing
    between a ride, its rider, its driver and the company's lists is
    the sharing the program has.  Methods are computations in a small
    state-and-exception monad: a mutation done before an exception is
    raised stays done, as in Python.

    Numbers.  Counters ([total_rides], [total_ratings], a rating) are
    Python [int]s and are integers here.  Amounts of money, distances,
    rates and average ratings are Python [int]s or [float]s; they are
    modelled as exact rationals ([Qc]), so the rounding error of
    binary floating point is outside the model.

    Output.  [print] calls only write to the console and are left
    out, except where the evaluation of their argument can raise. *)

From Stdlib Require Import QArith Qcanon ZArith Lia Lqa Bool Ascii String List.
From Stdlib Require Import Sorting.Sorted Sorting.Permutation.
From stdpp Require Import base numbers option list strings.

Local Open Scope string_scope.
Local Open Scope list_scope.
Local Open Scope Z_scope.

(** ** Python numbers *)

Module PyNum.

(** [int] values seen as numbers. *)
Definition of_int (z : Z) : Qc := Qc_of_Z z.

(** Truth value of a number: zero is falsy. *)
Definition truthy (q : Qc) : bool := bool_decide (q ≠ Q2Qc 0).

Definition geb (x y : Qc) : bool := bool_decide (Qcle y x).
Definition gtb (x y : Qc) : bool := bool_decide (Qclt y x).

(** Nearest integer, ties to the even one: the rounding mode of
    Python's [round]. *)
Definition round_half_even (q : Qc) : Z :=
  let n := Qnum (this q) in
  let d := Z.pos (Qden (this q)) in
  let f := n / d in
  let r := n mod d in
  match 2 * r ?= d with
  | Lt => f
  | Gt => f + 1
  | Eq => if Z.even f then f else f + 1
  end.

(** [round(x, 2)]. *)
Definition round2 (q : Qc) : Qc :=
  (of_int (round_half_even (q * of_int 100)) / of_int 100)%Qc.

(** [random.randint(a, b)], as a function of the entropy the
    generator consumes: every integer of [a..b] is the value at some
    entropy, and no other value is. *)
Definition randint (a b : Z) (entropy : N) : Z :=
  a + Z.of_N entropy mod (b - a + 1).

End PyNum.

(** ** Python strings *)

Module PyStr.

Definition lower_ascii (c : ascii) : ascii :=
  let n := nat_of_ascii c in
  if (65 <=? n)%nat && (n <=? 90)%nat then ascii_of_nat (n + 32) else c.

(** [str.lower()], on the ASCII letters. *)
Fixpoint lower (s : string) : string :=
  match s with
  | EmptyString => EmptyString
  | String c s' => String (lower_ascii c) (lower s')
  end.

End PyStr.

(** ** vehicle.py *)

Record Vehicle := mkVehicle {
  vehicle_type : string;
  license_plate : string;
  rate : Qc;
  status : string;
  capacity : option Z
}.

(** [Vehicle.__init__]; the base class sets no [capacity]. *)
Definition Vehicle_init (vehicle_type license_plate : string) (rate : Qc) : Vehicle :=
  mkVehicle vehicle_type license_plate rate "available" None.

Definition with_capacity (c : Z) (v : Vehicle) : Vehicle :=
  mkVehicle (vehicle_type v) (license_plate v) (rate v) (status v) (Some c).

Definition Car (license_plate : string) (rate : Qc) : Vehicle :=
  with_capacity 4 (Vehicle_init "car" license_plate rate).
Definition Bike (license_plate : string) (rate : Qc) : Vehicle :=
  with_capacity 2 (Vehicle_init "bike" license_plate rate).
Definition CNG (license_plate : string) (rate : Qc) : Vehicle :=
  with_capacity 3 (Vehicle_init "cng" license_plate rate).

(** Default rates of the three constructors. *)
Definition Car_default_rate : Qc := PyNum.of_int 30.
Definition Bike_default_rate : Qc := PyNum.of_int 20.
Definition CNG_default_rate : Qc := PyNum.of_int 25.

(** ** The object store *)

Definition rider_ref := nat.
Definition driver_ref := nat.
Definition ride_ref := nat.

(** Points in time, as [datetime.now()] returns them. *)
Definition datetime := Z.

Module Rider.
Record t := mk {
  name : string;
  email : string;
  nid : string;
  wallet : Qc;
  current_ride : option ride_ref;
  current_location : string;
  ride_history : list ride_ref;
  average_rating : Qc;
  total_ratings : Z
}.

Definition set_wallet (w : Qc) (r : t) : t :=
  mk (name r) (email r) (nid r) w (current_ride r) (current_location r)
     (ride_history r) (average_rating r) (total_ratings r).
Definition set_current_ride (c : option ride_ref) (r : t) : t :=
  mk (name r) (email r) (nid r) (wallet r) c (current_location r)
     (ride_history r) (average_rating r) (total_ratings r).
Definition set_ride_history (h : list ride_ref) (r : t) : t :=
  mk (name r) (email r) (nid r) (wallet r) (current_ride r) (current_location r)
     h (average_rating r) (total_ratings r).
Definition set_average_rating (a : Qc) (r : t) : t :=
  mk (name r) (email r) (nid r) (wallet r) (current_ride r) (current_location r)
     (ride_history r) a (total_ratings r).
Definition set_total_ratings (n : Z) (r : t) : t :=
  mk (name r) (email r) (nid r) (wallet r) (current_ride r) (current_location r)
     (ride_history r) (average_rating r) n.

(** [Rider.__init__] *)
Definition init (name email nid current_location : string) (initial_amount : Qc) : t :=
  mk name email nid initial_amount None current_location [] (Q2Qc 0) 0.
End Rider.

Module Driver.
Record t := mk {
  name : string;
  email : string;
  nid : string;
  wallet : Qc;
  current_location : string;
  vehicle : option Vehicle;
  total_rides : Z;
  is_available : bool;
  ride_history : list ride_ref;
  average_rating : Qc;
  total_ratings : Z
}.

Definition set_wallet (w : Qc) (d : t) : t :=
  mk (name d) (email d) (nid d) w (current_location d) (vehicle d)
     (total_rides d) (is_available d) (ride_history d) (average_rating d)
     (total_ratings d).
Definition set_total_rides (n : Z) (d : t) : t :=
  mk (name d) (email d) (nid d) (wallet d) (current_location d) (vehicle d)
     n (is_available d) (ride_history d) (average_rating d) (total_ratings d).
Definition set_is_available (b : bool) (d : t) : t :=
  mk (name d) (email d) (nid d) (wallet d) (current_location d) (vehicle d)
     (total_rides d) b (ride_history d) (average_rating d) (total_ratings d).
Definition set_ride_history (h : list ride_ref) (d : t) : t :=
  mk (name d) (email d) (nid d) (wallet d) (current_location d) (vehicle d)
     (total_rides d) (is_available d) h (average_rating d) (total_ratings d).
Definition set_average_rating (a : Qc) (d : t) : t :=
  mk (name d) (email d) (nid d) (wallet d) (current_location d) (vehicle d)
     (total_rides d) (is_available d) (ride_history d) a (total_ratings d).
Definition set_total_ratings (n : Z) (d : t) : t :=
  mk (name d) (email d) (nid d) (wallet d) (current_location d) (vehicle d)
     (total_rides d) (is_available d) (ride_history d) (average_rating d) n.

(** [Driver.__init__] *)
Definition init (name email nid current_location : string)
    (vehicle : option Vehicle) : t :=
  mk name email nid (Q2Qc 0) current_location vehicle 0 true [] (Q2Qc 0) 0.
End Driver.

Module Ride.
Record t := mk {
  start_location : string;
  end_location : string;
  driver : option driver_ref;
  rider : option rider_ref;
  start_time : option datetime;
  end_time : option datetime;
  vehicle : option Vehicle;
  distance : Qc;
  estimated_fare : Qc;
  is_completed : bool;
  is_cancelled : bool;
  cancellation_fee : Qc;
  rating : option Z
}.

Definition set_driver_field (d : option driver_ref) (r : t) : t :=
  mk (start_location r) (end_location r) d (rider r) (start_time r)
     (end_time r) (vehicle r) (distance r) (estimated_fare r)
     (is_completed r) (is_cancelled r) (cancellation_fee r) (rating r).
Definition set_rider (x : option rider_ref) (r : t) : t :=
  mk (start_location r) (end_location r) (driver r) x (start_time r)
     (end_time r) (vehicle r) (distance r) (estimated_fare r)
     (is_completed r) (is_cancelled r) (cancellation_fee r) (rating r).
Definition set_start_time (x : option datetime) (r : t) : t :=
  mk (start_location r) (end_location r) (driver r) (rider r) x
     (end_time r) (vehicle r) (distance r) (estimated_fare r)
     (is_completed r) (is_cancelled r) (cancellation_fee r) (rating r).
Definition set_end_time (x : option datetime) (r : t) : t :=
  mk (start_location r) (end_location r) (driver r) (rider r) (start_time r)
     x (vehicle r) (distance r) (estimated_fare r)
     (is_completed r) (is_cancelled r) (cancellation_fee r) (rating r).
Definition set_is_completed (b : bool) (r : t) : t :=
  mk (start_location r) (end_location r) (driver r) (rider r) (start_time r)
     (end_time r) (vehicle r) (distance r) (estimated_fare r)
     b (is_cancelled r) (cancellation_fee r) (rating r).
Definition set_is_cancelled (b : bool) (r : t) : t :=
  mk (start_location r) (end_location r) (driver r) (rider r) (start_time r)
     (end_time r) (vehicle r) (distance r) (estimated_fare r)
     (is_completed r) b (cancellation_fee r) (rating r).

(** The status that [__repr__] shows. *)
Inductive status := InProgress | Completed | Cancelled.
Definition status_of (r : t) : status :=
  if is_cancelled r then Cancelled
  else if is_completed r then Completed else InProgress.
End Ride.

Record Store := mkStore {
  riders : list Rider.t;
  drivers : list Driver.t;
  rides : list Ride.t
}.

(** ** Computations: state and exceptions *)

Inductive exn := AttributeError | TypeError | ZeroDivisionError.

(** [Wrong] is the result of following a reference that names no
    object of the store, which no Python program can do. *)
Inductive outcome (A : Type) :=
| Return (a : A)
| Raise (e : exn)
| Wrong.
Arguments Return {A} a.
Arguments Raise {A} e.
Arguments Wrong {A}.

Definition Py (A : Type) : Type := Store -> Store * outcome A.

Definition ret {A} (a : A) : Py A := fun s => (s, Return a).
Definition raise {A} (e : exn) : Py A := fun s => (s, Raise e).
Definition wrong {A} : Py A := fun s => (s, Wrong).

Definition bind {A B} (c : Py A) (k : A -> Py B) : Py B :=
  fun s =>
    match c s with
    | (s', Return a) => k a s'
    | (s', Raise e) => (s', Raise e)
    | (s', Wrong) => (s', Wrong)
    end.

(** [try: c  except Exception: h] *)
Definition try_except {A} (c : Py A) (h : exn -> Py A) : Py A :=
  fun s =>
    match c s with
    | (s', Raise e) => h e s'
    | r => r
    end.

Declare Scope py_scope.
Delimit Scope py_scope with py.
Notation "'let*' x ':=' c 'in' k" := (bind c (fun x => k))
  (at level 10, x name, c at level 100, k at level 200) : py_scope.
Notation "c ';;;' k" := (bind c (fun _ => k))
  (at level 100, k at level 200, right associativity) : py_scope.
Local Open Scope py_scope.

(** Lifting the outcome of a computation that does not touch the store. *)
Definition lift {A} (o : outcome A) : Py A := fun s => (s, o).

(** *** Reading and writing objects *)

Definition get_rider (x : rider_ref) : Py Rider.t :=
  fun s => match riders s !! x with
           | Some r => (s, Return r)
           | None => (s, Wrong)
           end.
Definition get_driver (x : driver_ref) : Py Driver.t :=
  fun s => match drivers s !! x with
           | Some d => (s, Return d)
           | None => (s, Wrong)
           end.
Definition get_ride (x : ride_ref) : Py Ride.t :=
  fun s => match rides s !! x with
           | Some r => (s, Return r)
           | None => (s, Wrong)
           end.

Definition upd_rider (x : rider_ref) (f : Rider.t -> Rider.t) : Py unit :=
  let* r := get_rider x in
  fun s => (mkStore (<[x := f r]> (riders s)) (drivers s) (rides s), Return tt).
Definition upd_driver (x : driver_ref) (f : Driver.t -> Driver.t) : Py unit :=
  let* d := get_driver x in
  fun s => (mkStore (riders s) (<[x := f d]> (drivers s)) (rides s), Return tt).
Definition upd_ride (x : ride_ref) (f : Ride.t -> Ride.t) : Py unit :=
  let* r := get_ride x in
  fun s => (mkStore (riders s) (drivers s) (<[x := f r]> (rides s)), Return tt).

(** A new ride object; its reference is the next free index. *)
Definition new_ride (r : Ride.t) : Py ride_ref :=
  fun s => (mkStore (riders s) (drivers s) (rides s ++ [r]),
            Return (length (rides s))).

(** Attribute access through a reference that may be [None]. *)
Definition attr_of {A} (o : option A) : Py A :=
  match o with
  | Some a => ret a
  | None => raise AttributeError
  end.

(** ** ride.py: class Ride *)

(** [Ride.CANCELLATION_FEE] *)
Definition CANCELLATION_FEE : Qc := PyNum.of_int 20.

(** [Ride.calculate_fare], on the two attributes it reads. *)
Definition calculate_fare (distance : Qc) (vehicle : option Vehicle) : outcome Qc :=
  let base_fare := PyNum.of_int 50 in
  match vehicle with
  | None => Raise AttributeError
  | Some v => Return (PyNum.round2 (base_fare + distance * rate v)%Qc)
  end.

(** [distance if distance else random.randint(5, 25)] *)
Definition distance_or_random (distance : option Qc) (entropy : N) : Qc :=
  match distance with
  | Some d => if PyNum.truthy d then d else PyNum.of_int (PyNum.randint 5 25 entropy)
  | None => PyNum.of_int (PyNum.randint 5 25 entropy)
  end.

(** [Ride.__init__]: the attributes of the new object, or the
    exception that ends the construction. *)
Definition Ride_init (start_location end_location : string)
    (vehicle : option Vehicle) (distance : option Qc) (entropy : N)
    : outcome Ride.t :=
  let distance := distance_or_random distance entropy in
  match calculate_fare distance vehicle with
  | Return fare =>
      Return (Ride.mk start_location end_location None None None None
                vehicle distance fare false false CANCELLATION_FEE None)
  | Raise e => Raise e
  | Wrong => Wrong
  end.

(** The expression [Ride(start, end, vehicle, distance)]. *)
Definition Ride_new (start_location end_location : string)
    (vehicle : option Vehicle) (distance : option Qc) (entropy : N)
    : Py ride_ref :=
  let* r := lift (Ride_init start_location end_location vehicle distance entropy) in
  new_ride r.

Definition set_driver (self : ride_ref) (driver : driver_ref) : Py unit :=
  upd_ride self (Ride.set_driver_field (Some driver)).

Definition start_ride (self : ride_ref) (now : datetime) : Py unit :=
  upd_ride self (Ride.set_start_time (Some now)).

(** [Ride.end_ride].  The last step is the subtraction
    [self.end_time - self.start_time], a [TypeError] when the ride was
    never started. *)
Definition end_ride (self : ride_ref) (now : datetime) : Py unit :=
  upd_ride self (Ride.set_end_time (Some now)) ;;;
  upd_ride self (Ride.set_is_completed true) ;;;
  let* r := get_ride self in
  let* x := attr_of (Ride.rider r) in
  upd_rider x (fun o => Rider.set_wallet (Rider.wallet o - Ride.estimated_fare r)%Qc o) ;;;
  let* d := attr_of (Ride.driver r) in
  upd_driver d (fun o => Driver.set_wallet (Driver.wallet o + Ride.estimated_fare r)%Qc o) ;;;
  upd_rider x (fun o => Rider.set_ride_history (Rider.ride_history o ++ [self]) o) ;;;
  upd_rider x (Rider.set_current_ride None) ;;;
  match Ride.start_time r with
  | None => raise TypeError
  | Some _ => ret tt
  end.

(** [Ride.cancel_ride].  The result is [Some false] for [False] and
    [None] for a call that reaches the end of the method. *)
Definition cancel_ride (self : ride_ref) (cancelled_by : string)
    (now : datetime) : Py (option bool) :=
  let* r := get_ride self in
  if Ride.is_completed r then ret (Some false)
  else if Ride.is_cancelled r then ret (Some false)
  else
    upd_ride self (Ride.set_is_cancelled true) ;;;
    upd_ride self (Ride.set_end_time (Some now)) ;;;
    (if String.eqb cancelled_by "rider" then
       let* x := attr_of (Ride.rider r) in
       let* o := get_rider x in
       if PyNum.geb (Rider.wallet o) (Ride.cancellation_fee r) then
         upd_rider x (fun o => Rider.set_wallet (Rider.wallet o - Ride.cancellation_fee r)%Qc o) ;;;
         match Ride.driver r with
         | Some d =>
             upd_driver d (fun o => Driver.set_wallet (Driver.wallet o + Ride.cancellation_fee r)%Qc o)
         | None => ret tt
         end
       else ret tt
     else ret tt) ;;;
    match Ride.driver r with
    | Some d => upd_driver d (Driver.set_is_available true)
    | None => ret tt
    end ;;;
    ret None.

(** ** users.py: class Driver *)

Definition accept_ride (self : driver_ref) (ride : ride_ref)
    (now : datetime) : Py unit :=
  start_ride ride now ;;;
  set_driver ride self ;;;
  upd_driver self (Driver.set_is_available false).

Definition reach_destination (self : driver_ref) (ride : ride_ref)
    (now : datetime) : Py unit :=
  end_ride ride now ;;;
  upd_driver self (fun o => Driver.set_total_rides (Driver.total_rides o + 1) o) ;;;
  upd_driver self (Driver.set_is_available true) ;;;
  upd_driver self (fun o => Driver.set_ride_history (Driver.ride_history o ++ [ride]) o).



(** ** ride.py: classes RideRequest and RideMatching *)

Record RideRequest := mkRideRequest {
  rq_rider : rider_ref;
  rq_end_location : string
}.

Record RideMatching := mkRideMatching {
  available_drivers : list driver_ref
}.

(** The objects behind a list of references, in the order of the list. *)
Fixpoint get_drivers (l : list driver_ref) : Py (list (driver_ref * Driver.t)) :=
  match l with
  | [] => ret []
  | x :: l' =>
      let* d := get_driver x in
      let* ds := get_drivers l' in
      ret ((x, d) :: ds)
  end.

(** [RideMatching.__init__] *)
Definition RideMatching_init (drivers : list driver_ref) : Py RideMatching :=
  let* ds := get_drivers drivers in
  ret (mkRideMatching
         (map fst (List.filter (fun p => Driver.is_available (snd p)) ds))).

(** [max(first :: rest, key=key)]: the running maximum is replaced only
    by a strictly greater item. *)
Fixpoint max_by {A} (key : A -> Qc) (best : A) (l : list A) : A :=
  match l with
  | [] => best
  | x :: l' => max_by key (if PyNum.gtb (key x) (key best) then x else best) l'
  end.

(** The test of the loop of [find_driver]. *)
Definition has_vehicle_type (vehicle_type : string) (d : Driver.t) : bool :=
  match Driver.vehicle d with
  | Some (mkVehicle its_type _ _ _ _) =>
      String.eqb its_type (PyStr.lower vehicle_type)
  | None => false
  end.

(** [RideMatching.find_driver] *)
Definition find_driver (self : RideMatching) (ride_request : RideRequest)
    (vehicle_type : string) (entropy : N) (now : datetime)
    : Py (option ride_ref) :=
  match available_drivers self with
  | [] => ret None
  | _ =>
      let* ds := get_drivers (available_drivers self) in
      let suitable_drivers :=
        List.filter (fun p => has_vehicle_type vehicle_type (snd p)) ds in
      match suitable_drivers with
      | [] => ret None
      | first :: rest =>
          let best_driver :=
            max_by (fun p => Driver.average_rating (snd p)) first rest in
          let* rider := get_rider (rq_rider ride_request) in
          let* ride :=
            Ride_new (Rider.current_location rider)
                     (rq_end_location ride_request)
                     (Driver.vehicle (snd best_driver)) None entropy in
          accept_ride (fst best_driver) ride now ;;;
          ret (Some ride)
      end
  end.

(** ** ride.py: class RideSharing *)

Record RideSharing := mkRideSharing {
  company_name : string;
  rs_riders : list rider_ref;
  rs_drivers : list driver_ref;
  rs_total_rides : Z
}.

(** ** users.py: class Rider *)

(** [Rider.request_ride]; [None] is Python's [None]. *)
Definition request_ride (self : rider_ref) (ride_sharing : RideSharing)
    (destination vehicle_type : string) (entropy : N) (now : datetime)
    : Py (option ride_ref) :=
  try_except
    (let* me := get_rider self in
     let* active :=
       match Rider.current_ride me with
       | None => ret false
       | Some c =>
           let* r := get_ride c in
           ret (negb (Ride.is_completed r) && negb (Ride.is_cancelled r))
       end in
     if (active : bool) then ret None
     else
       let ride_request := mkRideRequest self destination in
       let* ride_matching := RideMatching_init (rs_drivers ride_sharing) in
       let* ride := find_driver ride_matching ride_request vehicle_type entropy now in
       match ride with
       | Some ride =>
           let* r := get_ride ride in
           let* me := get_rider self in
           if PyNum.geb (Rider.wallet me) (Ride.estimated_fare r) then
             upd_ride ride (Ride.set_rider (Some self)) ;;;
             upd_rider self (Rider.set_current_ride (Some ride)) ;;;
             ret (Some ride)
           else ret None
       | None => ret None
       end)
    (fun _ => ret None).


(** ** ride.py: the queries of RideSharing *)

(** [RideSharing.get_available_drivers] *)
Definition get_available_drivers (self : RideSharing) : Py (list driver_ref) :=
  let* ds := get_drivers (rs_drivers self) in
  ret (map fst (List.filter (fun p => Driver.is_available (snd p)) ds)).




(** The slice [l[:limit]] for an [int] limit: a negative limit counts
    from the end. *)
Definition slice_to {A} (limit : Z) (l : list A) : list A :=
  if limit <? 0 then firstn (Z.to_nat (Z.of_nat (length l) + limit)) l
  else firstn (Z.to_nat limit) l.



(** * Notions used in the statements *)

(** What "rounded to 2 decimal places" asks of a result [y] for a
    value [x]: [y] is a whole number of hundredths, no further than
    half a hundredth from [x], and the even one when [x] lies half-way
    between two. *)
Definition half_cent : Qc := (Q2Qc 1 / PyNum.of_int 200)%Qc.

Definition rounded_to_2_decimals (x y : Qc) : Prop :=
  exists n : Z,
    y = (PyNum.of_int n / PyNum.of_int 100)%Qc
    /\ (y - half_cent <= x)%Qc /\ (x <= y + half_cent)%Qc
    /\ ((x = y - half_cent \/ x = y + half_cent)%Qc -> Z.even n = true).

(** The store after one object has been replaced. *)
Definition put_rider (x : rider_ref) (o : Rider.t) (s : Store) : Store :=
  mkStore (<[x := o]> (riders s)) (drivers s) (rides s).
Definition put_driver (x : driver_ref) (o : Driver.t) (s : Store) : Store :=
  mkStore (riders s) (<[x := o]> (drivers s)) (rides s).
Definition put_ride (x : ride_ref) (o : Ride.t) (s : Store) : Store :=
  mkStore (riders s) (drivers s) (<[x := o]> (rides s)).
Definition add_ride (o : Ride.t) (s : Store) : Store :=
  mkStore (riders s) (drivers s) (rides s ++ [o]).

(** A ride that a driver has accepted and that has not ended. *)
Definition in_progress (r : Ride.t) : Prop :=
  Ride.status_of r = Ride.InProgress /\ is_Some (Ride.start_time r).

(** The drivers behind a list of references, paired with them. *)
Definition snapshot (s : Store) (refs : list driver_ref)
    (ds : list (driver_ref * Driver.t)) : Prop :=
  Forall2 (fun x p => fst p = x /\ drivers s !! x = Some (snd p)) refs ds.








(** The ride that [find_driver] builds for a rider at [start], and
    that same ride once the driver [x] has accepted it. *)
Definition matched_ride (start destination : string) (vehicle : Vehicle)
    (entropy : N) : Ride.t :=
  Ride.mk start destination None None None None (Some vehicle)
    (distance_or_random None entropy)
    (PyNum.round2 (PyNum.of_int 50 + distance_or_random None entropy * rate vehicle)%Qc)
    false false CANCELLATION_FEE None.

Definition accepted_ride (x : driver_ref) (now : datetime) (r : Ride.t) : Ride.t :=
  Ride.set_driver_field (Some x) (Ride.set_start_time (Some now) r).

(** The two tests that a driver passes on the way to the selection. *)
Definition matches (requested : string) (p : driver_ref * Driver.t) : bool :=
  Driver.is_available (snd p) && has_vehicle_type requested (snd p).

(** The objects that a completed ride leaves behind. *)
Definition rider_after_ride (ride : ride_ref) (fare : Qc) (o : Rider.t) : Rider.t :=
  Rider.set_current_ride None
    (Rider.set_ride_history (Rider.ride_history o ++ [ride])
       (Rider.set_wallet (Rider.wallet o - fare)%Qc o)).

Definition ride_after_ride (now : datetime) (r : Ride.t) : Ride.t :=
  Ride.set_is_completed true (Ride.set_end_time (Some now) r).

Definition driver_after_ride (ride : ride_ref) (fare : Qc) (dv : Driver.t) : Driver.t :=
  Driver.set_ride_history (Driver.ride_history dv ++ [ride])
    (Driver.set_is_available true
       (Driver.set_total_rides (Driver.total_rides dv + 1)
          (Driver.set_wallet (Driver.wallet dv + fare)%Qc dv))).

(** * Sample runs *)

Module Demo.

Definition q (n d : Z) : Qc := (PyNum.of_int n / PyNum.of_int d)%Qc.

Definition gablu : Rider.t := Rider.init "Gablu" "gablu@email.com" "765" "Mohakhali" (PyNum.of_int 1000).
Definition rina : Rider.t := Rider.init "Rina" "rina@email.com" "123" "Dhanmondi" (PyNum.of_int 100).

Definition rated (a : Qc) (n rides : Z) (d : Driver.t) : Driver.t :=
  Driver.set_total_rides rides (Driver.set_total_ratings n (Driver.set_average_rating a d)).

Definition hablu : Driver.t :=
  rated (q 45 10) 10 10
    (Driver.init "Hablu" "hablu@email.com" "456" "Gulshan" (Some (Car "DHK-1234" Car_default_rate))).
Definition karim : Driver.t :=
  rated (q 48 10) 15 15
    (Driver.init "Karim" "karim@email.com" "789" "Banani" (Some (Bike "DHK-5678" Bike_default_rate))).
Definition jamal : Driver.t :=
  rated (q 42 10) 8 8
    (Driver.init "Jamal" "jamal@email.com" "321" "Uttara" (Some (CNG "DHK-9012" CNG_default_rate))).

Definition store0 : Store := mkStore [gablu; rina] [hablu; karim; jamal] [].
Definition company : RideSharing := mkRideSharing "QuickRide Bangladesh" [0; 1]%nat [0; 1; 2]%nat 0.

(** Gablu asks for a bike at entropy 5, which samples 10 km, and
    Karim accepts at time 100. *)
Definition bike : Vehicle := Bike "DHK-5678" Bike_default_rate.
Definition ride0_new : Ride.t :=
  Ride.mk "Mohakhali" "Gulshan" None None None None (Some bike)
    (PyNum.of_int (PyNum.randint 5 25 5%N))
    (PyNum.round2 (PyNum.of_int 50 + PyNum.of_int (PyNum.randint 5 25 5%N) * rate bike)%Qc)
    false false CANCELLATION_FEE None.
Definition ride0_accepted : Ride.t :=
  Ride.set_driver_field (Some 1%nat) (Ride.set_start_time (Some 100) ride0_new).
Definition ride0 : Ride.t := Ride.set_rider (Some 0%nat) ride0_accepted.

Definition store1 : Store :=
  mkStore [Rider.set_current_ride (Some 0%nat) gablu; rina]
          [hablu; Driver.set_is_available false karim; jamal]
          [ride0].

(** Gablu cancels that ride at time 130; the ride is completed all
    the same at time 160. *)
Definition store2 : Store :=
  Eval vm_compute in fst (cancel_ride 0%nat "rider" 130 store1).
Definition store3 : Store :=
  Eval vm_compute in fst (reach_destination 1%nat 0%nat 160 store2).

(** Rina, who has 100, asks for a car at entropy 5: 10 km, fare 350. *)
Definition store4 : Store :=
  Eval vm_compute in
    fst (request_ride 1%nat company "Gulshan" "car" 5%N 100 store0).


End Demo.


(** * The rest of the code *)

(** ** users.py: the other methods of Rider and Driver *)

(** [Rider.load_cash] *)
Definition load_cash (self : rider_ref) (amount : Qc) : Py bool :=
  if PyNum.gtb amount (Q2Qc 0) then
    upd_rider self (fun o => Rider.set_wallet (Rider.wallet o + amount)%Qc o) ;;;
    ret true
  else ret false.


(** ** Money *)

Definition sum_by {A} (f : A -> Qc) (l : list A) : Qc :=
  foldr (fun a acc => (f a + acc)%Qc) (Q2Qc 0) l.

(** All the money of the store: the wallets of riders and drivers. *)
Definition total_money (s : Store) : Qc :=
  (sum_by Rider.wallet (riders s) + sum_by Driver.wallet (drivers s))%Qc.


(** A rider who may ask for a ride: no current ride, or one that is
    over. *)
Definition no_active_ride (s : Store) (me : Rider.t) : Prop :=
  match Rider.current_ride me with
  | None => True
  | Some c =>
      exists r, rides s !! c = Some r /\ Ride.status_of r <> Ride.InProgress
  end.

(** Whether a cancellation takes the fee: the rider cancels and has it. *)
Definition fee_charged (cancelled_by : string) (o : Rider.t) (r : Ride.t) : bool :=
  String.eqb cancelled_by "rider"
  && PyNum.geb (Rider.wallet o) (Ride.cancellation_fee r).

Definition ride_after_cancel (now : datetime) (r : Ride.t) : Ride.t :=
  Ride.set_end_time (Some now) (Ride.set_is_cancelled true r).

(** The driver that matching picks among the drivers [ds] of a pool:
    the first of the best rated of those that pass the two tests. *)
Definition best_match (requested : string)
    (ds : list (driver_ref * Driver.t)) : option (driver_ref * Driver.t) :=
  match List.filter (matches requested) ds with
  | [] => None
  | first :: rest =>
      Some (max_by (fun p => Driver.average_rating (snd p)) first rest)
  end.

(** ** ride.py: registration *)

(** New rider and driver objects. *)
Definition new_rider (o : Rider.t) : Py rider_ref :=
  fun s => (mkStore (riders s ++ [o]) (drivers s) (rides s),
            Return (length (riders s))).
Definition new_driver (o : Driver.t) : Py driver_ref :=
  fun s => (mkStore (riders s) (drivers s ++ [o]) (rides s),
            Return (length (drivers s))).

(** [RideSharing.__init__] *)
Definition RideSharing_init (company_name : string) : RideSharing :=
  mkRideSharing company_name [] [] 0.

(** [RideSharing.add_rider] and [RideSharing.add_driver] *)
Definition add_rider (self : RideSharing) (rider : rider_ref) : RideSharing :=
  mkRideSharing (company_name self) (rs_riders self ++ [rider])
                (rs_drivers self) (rs_total_rides self).
Definition add_driver (self : RideSharing) (driver : driver_ref) : RideSharing :=
  mkRideSharing (company_name self) (rs_riders self)
                (rs_drivers self ++ [driver]) (rs_total_rides self).

(** ** main.py: looking riders and drivers up by name *)

(** The loop of [find_rider_by_name] over the riders still to visit. *)
Fixpoint find_rider_in (riders : list rider_ref) (name : string)
    : Py (option rider_ref) :=
  match riders with
  | [] => ret None
  | rider :: rest =>
      let* o := get_rider rider in
      if String.eqb (PyStr.lower (Rider.name o)) (PyStr.lower name)
      then ret (Some rider)
      else find_rider_in rest name
  end.

Definition find_rider_by_name (ride_sharing : RideSharing) (name : string)
    : Py (option rider_ref) :=
  find_rider_in (rs_riders ride_sharing) name.

Fixpoint find_driver_in (drivers : list driver_ref) (name : string)
    : Py (option driver_ref) :=
  match drivers with
  | [] => ret None
  | driver :: rest =>
      let* o := get_driver driver in
      if String.eqb (PyStr.lower (Driver.name o)) (PyStr.lower name)
      then ret (Some driver)
      else find_driver_in rest name
  end.

Definition find_driver_by_name (ride_sharing : RideSharing) (name : string)
    : Py (option driver_ref) :=
  find_driver_in (rs_drivers ride_sharing) name.

(** [register_rider] of main.py, on the answers to its prompts. *)
Definition register_rider (ride_sharing : RideSharing)
    (name email nid location : string) (initial_amount : Qc)
    : Py RideSharing :=
  let* rider := new_rider (Rider.init name email nid location initial_amount) in
  ret (add_rider ride_sharing rider).

(** [register_driver] of main.py, on the answers to its prompts; a
    choice other than 1, 2 or 3 registers nobody. *)
Definition register_driver (ride_sharing : RideSharing)
    (name email nid location : string) (vehicle_choice : Z)
    (license_plate : string) : Py RideSharing :=
  let registered (vehicle : Vehicle) : Py RideSharing :=
    let* driver :=
      new_driver (Driver.init name email nid location (Some vehicle)) in
    ret (add_driver ride_sharing driver) in
  if vehicle_choice =? 1 then registered (Car license_plate Car_default_rate)
  else if vehicle_choice =? 2 then registered (Bike license_plate Bike_default_rate)
  else if vehicle_choice =? 3 then registered (CNG license_plate CNG_default_rate)
  else ret ride_sharing.

(** A rider of the store whose name is the given one, letter case
    aside. *)
Definition named (s : Store) (name : string) (x : rider_ref) : Prop :=
  exists o, riders s !! x = Some o
            /\ PyStr.lower (Rider.name o) = PyStr.lower name.

(** ** ride.py: searching *)

(** [l.sort(key=key, reverse=True)] for a key that is a number:
    descending and stable. *)
Fixpoint insert_desc_by {A} (key : A -> Qc) (x : A) (l : list A) : list A :=
  match l with
  | [] => [x]
  | y :: l' =>
      if PyNum.gtb (key y) (key x) then y :: insert_desc_by key x l'
      else x :: l
  end.

Definition sort_reverse_by {A} (key : A -> Qc) (l : list A) : list A :=
  foldr (insert_desc_by key) [] l.

Definition rating_of (p : driver_ref * Driver.t) : Qc :=
  Driver.average_rating (snd p).

(** [RideSharing.search_drivers_by_rating] *)
Definition search_drivers_by_rating (self : RideSharing) (min_rating : Qc)
    : Py (list driver_ref) :=
  let* ds := get_drivers (rs_drivers self) in
  let top_drivers :=
    List.filter (fun p => PyNum.geb (Driver.average_rating (snd p)) min_rating) ds in
  match top_drivers with
  | [] => ret []
  | _ => ret (map fst (sort_reverse_by rating_of top_drivers))
  end.

(** The items of a list that have a given rating, in the order of the
    list. *)
Definition with_rating {A} (key : A -> Qc) (k : Qc) (l : list A) : list A :=
  List.filter (fun p => bool_decide (key p = k)) l.

(** [needle in haystack] for two strings: the needle starts at some
    position of the haystack. *)
Fixpoint str_in (needle haystack : string) : bool :=
  String.prefix needle haystack
  || match haystack with
     | EmptyString => false
     | String _ rest => str_in needle rest
     end.

(** The comprehension of [search_riders_by_name]. *)
Fixpoint riders_matching (riders : list rider_ref) (name : string)
    : Py (list rider_ref) :=
  match riders with
  | [] => ret []
  | r :: rest =>
      let* o := get_rider r in
      let* others := riders_matching rest name in
      ret (if str_in (PyStr.lower name) (PyStr.lower (Rider.name o))
           then r :: others else others)
  end.

(** [RideSharing.search_riders_by_name] *)
Definition search_riders_by_name (self : RideSharing) (name : string)
    : Py (list rider_ref) :=
  let* matches := riders_matching (rs_riders self) name in
  match matches with
  | [] => ret []
  | _ => ret matches
  end.


(** ** main.py: cancelling from the menu *)

Module Main.

(** [cancel_ride(ride_sharing)], on the answers to its two prompts. *)
Definition cancel_ride (ride_sharing : RideSharing)
    (rider_name confirm : string) (now : datetime) : Py unit :=
  let* found := find_rider_by_name ride_sharing rider_name in
  match found with
  | None => ret tt
  | Some rider =>
      let* o := get_rider rider in
      match Rider.current_ride o with
      | None => ret tt
      | Some ride =>
          if String.eqb (PyStr.lower confirm) "y" then
            cancel_ride ride "rider" now ;;; ret tt
          else ret tt
      end
  end.

End Main.

(** ** data_manager.py

    The four JSON documents are records of the values that the code
    writes; a key that the loading code reads with [.get] may be
    missing and is an [option].  The disk holds at most one document
    per file.  Failures of the file system itself are outside the
    model. *)

Module RiderDict.
Record t := mk {
  name : string;
  email : string;
  nid : string;
  current_location : string;
  wallet : Qc;
  ride_history_count : Z;
  average_rating : option Qc;
  total_ratings : option Z
}.
End RiderDict.

Module VehicleDict.
Record t := mk {
  type : string;
  license_plate : string;
  rate : Qc
}.
End VehicleDict.

Module DriverDict.
Record t := mk {
  name : string;
  email : string;
  nid : string;
  current_location : string;
  wallet : Qc;
  total_rides : Z;
  is_available : bool;
  average_rating : option Qc;
  total_ratings : option Z;
  vehicle : option VehicleDict.t
}.
End DriverDict.

Module RideDict.
Record t := mk {
  start_location : string;
  end_location : string;
  distance : Qc;
  fare : Qc;
  vehicle_type : string;
  rider_name : option string;
  driver_name : option string;
  start_time : option datetime;
  end_time : option datetime;
  status : string
}.
End RideDict.

Module CompanyDict.
Record t := mk {
  company_name : string;
  total_rides : option Z;
  last_updated : option datetime
}.
End CompanyDict.

Record Disk := mkDisk {
  riders_file : option (list RiderDict.t);
  drivers_file : option (list DriverDict.t);
  rides_file : option (list RideDict.t);
  company_file : option CompanyDict.t
}.

Definition no_files : Disk := mkDisk None None None None.

Module DataManager.

Definition rider_dict (rider : Rider.t) : RiderDict.t :=
  RiderDict.mk (Rider.name rider) (Rider.email rider) (Rider.nid rider)
    (Rider.current_location rider) (Rider.wallet rider)
    (Z.of_nat (length (Rider.ride_history rider)))
    (Some (Rider.average_rating rider)) (Some (Rider.total_ratings rider)).

Fixpoint riders_data (riders : list rider_ref) : Py (list RiderDict.t) :=
  match riders with
  | [] => ret []
  | rider :: rest =>
      let* o := get_rider rider in
      let* data := riders_data rest in
      ret (rider_dict o :: data)
  end.

(** [DataManager.save_riders]: the disk afterwards and the answer. *)
Definition save_riders (riders : list rider_ref) (disk : Disk)
    : Py (Disk * bool) :=
  try_except
    (let* riders_data := riders_data riders in
     ret (mkDisk (Some riders_data) (drivers_file disk) (rides_file disk)
                 (company_file disk), true))
    (fun _ => ret (disk, false)).

(** [DataManager.load_riders] *)
Definition load_riders (disk : Disk) : list RiderDict.t :=
  match riders_file disk with
  | None => []
  | Some riders_data => riders_data
  end.

Definition vehicle_dict (v : Vehicle) : VehicleDict.t :=
  VehicleDict.mk (vehicle_type v) (license_plate v) (rate v).

Definition driver_dict (driver : Driver.t) : DriverDict.t :=
  DriverDict.mk (Driver.name driver) (Driver.email driver) (Driver.nid driver)
    (Driver.current_location driver) (Driver.wallet driver)
    (Driver.total_rides driver) (Driver.is_available driver)
    (Some (Driver.average_rating driver)) (Some (Driver.total_ratings driver))
    (match Driver.vehicle driver with
     | Some v => Some (vehicle_dict v)
     | None => None
     end).

Fixpoint drivers_data (drivers : list driver_ref) : Py (list DriverDict.t) :=
  match drivers with
  | [] => ret []
  | driver :: rest =>
      let* o := get_driver driver in
      let* data := drivers_data rest in
      ret (driver_dict o :: data)
  end.

(** [DataManager.save_drivers] *)
Definition save_drivers (drivers : list driver_ref) (disk : Disk)
    : Py (Disk * bool) :=
  try_except
    (let* drivers_data := drivers_data drivers in
     ret (mkDisk (riders_file disk) (Some drivers_data) (rides_file disk)
                 (company_file disk), true))
    (fun _ => ret (disk, false)).

(** [DataManager.load_drivers] *)
Definition load_drivers (disk : Disk) : list DriverDict.t :=
  match drivers_file disk with
  | None => []
  | Some drivers_data => drivers_data
  end.

(** The name behind a reference that may be [None]. *)
Definition rider_name_of (x : option rider_ref) : Py (option string) :=
  match x with
  | Some x => let* o := get_rider x in ret (Some (Rider.name o))
  | None => ret None
  end.
Definition driver_name_of (x : option driver_ref) : Py (option string) :=
  match x with
  | Some x => let* o := get_driver x in ret (Some (Driver.name o))
  | None => ret None
  end.

(** The loop of [save_rides]: only completed rides are written. *)
Fixpoint rides_data (rides : list ride_ref) : Py (list RideDict.t) :=
  match rides with
  | [] => ret []
  | ride :: rest =>
      let* r := get_ride ride in
      if Ride.is_completed r then
        let* v := attr_of (Ride.vehicle r) in
        let* rider_name := rider_name_of (Ride.rider r) in
        let* driver_name := driver_name_of (Ride.driver r) in
        let* data := rides_data rest in
        ret (RideDict.mk (Ride.start_location r) (Ride.end_location r)
               (Ride.distance r) (Ride.estimated_fare r) (vehicle_type v)
               rider_name driver_name (Ride.start_time r) (Ride.end_time r)
               "completed" :: data)
      else rides_data rest
  end.

(** [DataManager.save_rides] *)
Definition save_rides (rides : list ride_ref) (disk : Disk)
    : Py (Disk * bool) :=
  try_except
    (let* rides_data := rides_data rides in
     ret (mkDisk (riders_file disk) (drivers_file disk) (Some rides_data)
                 (company_file disk), true))
    (fun _ => ret (disk, false)).

(** [DataManager.load_rides] *)
Definition load_rides (disk : Disk) : list RideDict.t :=
  match rides_file disk with
  | None => []
  | Some rides_data => rides_data
  end.

(** [DataManager.save_company_stats] *)
Definition save_company_stats (company_name : string) (total_rides : Z)
    (now : datetime) (disk : Disk) : Disk * bool :=
  (mkDisk (riders_file disk) (drivers_file disk) (rides_file disk)
          (Some (CompanyDict.mk company_name (Some total_rides) (Some now))),
   true).

(** [DataManager.load_company_stats] *)
Definition load_company_stats (disk : Disk) : CompanyDict.t :=
  match company_file disk with
  | None => CompanyDict.mk "QuickRide Bangladesh" (Some 0) None
  | Some company_data => company_data
  end.

(** The rides that [save_all] collects: the histories of the riders,
    one after the other. *)
Fixpoint all_rides (riders : list rider_ref) : Py (list ride_ref) :=
  match riders with
  | [] => ret []
  | rider :: rest =>
      let* o := get_rider rider in
      let* others := all_rides rest in
      ret (Rider.ride_history o ++ others)
  end.

(** [DataManager.save_all] *)
Definition save_all (ride_sharing : RideSharing) (now : datetime)
    (disk : Disk) : Py (Disk * bool) :=
  let* saved1 := save_riders (rs_riders ride_sharing) disk in
  let* saved2 := save_drivers (rs_drivers ride_sharing) (fst saved1) in
  let saved3 :=
    save_company_stats (company_name ride_sharing)
      (rs_total_rides ride_sharing) now (fst saved2) in
  let* all_rides := all_rides (rs_riders ride_sharing) in
  let* saved4 := save_rides all_rides (fst saved3) in
  ret (fst saved4, snd saved1 && snd saved2 && snd saved3 && snd saved4).

(** [DataManager.clear_all_data] *)
Definition clear_all_data (disk : Disk) : Disk := no_files.

End DataManager.

(** ** main.py: loading what was saved *)

Definition restore_rider (rider_dict : RiderDict.t) : Rider.t :=
  let rider :=
    Rider.init (RiderDict.name rider_dict) (RiderDict.email rider_dict)
      (RiderDict.nid rider_dict) (RiderDict.current_location rider_dict)
      (RiderDict.wallet rider_dict) in
  Rider.set_total_ratings
    (match RiderDict.total_ratings rider_dict with Some n => n | None => 0 end)
    (Rider.set_average_rating
       (match RiderDict.average_rating rider_dict with
        | Some a => a
        | None => Q2Qc 0
        end) rider).

Definition restore_vehicle (v : VehicleDict.t) : option Vehicle :=
  if String.eqb (VehicleDict.type v) "car" then
    Some (Car (VehicleDict.license_plate v) (VehicleDict.rate v))
  else if String.eqb (VehicleDict.type v) "bike" then
    Some (Bike (VehicleDict.license_plate v) (VehicleDict.rate v))
  else if String.eqb (VehicleDict.type v) "cng" then
    Some (CNG (VehicleDict.license_plate v) (VehicleDict.rate v))
  else None.

Definition restore_driver (driver_dict : DriverDict.t) : Driver.t :=
  let vehicle :=
    match DriverDict.vehicle driver_dict with
    | Some v => restore_vehicle v
    | None => None
    end in
  let driver :=
    Driver.init (DriverDict.name driver_dict) (DriverDict.email driver_dict)
      (DriverDict.nid driver_dict) (DriverDict.current_location driver_dict)
      vehicle in
  Driver.set_total_ratings
    (match DriverDict.total_ratings driver_dict with Some n => n | None => 0 end)
    (Driver.set_average_rating
       (match DriverDict.average_rating driver_dict with
        | Some a => a
        | None => Q2Qc 0
        end)
       (Driver.set_is_available (DriverDict.is_available driver_dict)
          (Driver.set_total_rides (DriverDict.total_rides driver_dict)
             (Driver.set_wallet (DriverDict.wallet driver_dict) driver)))).

(** The two loops of [load_saved_data]. *)
Fixpoint load_riders_into (riders_data : list RiderDict.t)
    (ride_sharing : RideSharing) : Py RideSharing :=
  match riders_data with
  | [] => ret ride_sharing
  | rider_dict :: rest =>
      let* rider := new_rider (restore_rider rider_dict) in
      load_riders_into rest (add_rider ride_sharing rider)
  end.

Fixpoint load_drivers_into (drivers_data : list DriverDict.t)
    (ride_sharing : RideSharing) : Py RideSharing :=
  match drivers_data with
  | [] => ret ride_sharing
  | driver_dict :: rest =>
      let* driver := new_driver (restore_driver driver_dict) in
      load_drivers_into rest (add_driver ride_sharing driver)
  end.

(** [load_saved_data] of main.py *)
Definition load_saved_data (ride_sharing : RideSharing) (disk : Disk)
    : Py RideSharing :=
  let company_data := DataManager.load_company_stats disk in
  let ride_sharing :=
    mkRideSharing (company_name ride_sharing) (rs_riders ride_sharing)
      (rs_drivers ride_sharing)
      (match CompanyDict.total_rides company_data with
       | Some n => n
       | None => 0
       end) in
  let* ride_sharing :=
    load_riders_into (DataManager.load_riders disk) ride_sharing in
  load_drivers_into (DataManager.load_drivers disk) ride_sharing.

(** What a save and a reload keep of a rider and of a driver: all but
    the rides. *)
Definition reloaded_rider (o : Rider.t) : Rider.t :=
  Rider.set_ride_history [] (Rider.set_current_ride None o).
Definition reloaded_driver (o : Driver.t) : Driver.t :=
  Driver.set_ride_history [] o.

(** A vehicle as one of the three constructors builds it. *)
Definition built_vehicle (v : Vehicle) : Prop :=
  v = Car (license_plate v) (rate v)
  \/ v = Bike (license_plate v) (rate v)
  \/ v = CNG (license_plate v) (rate v).

(** The riders and the drivers behind the lists of the company. *)
Definition riders_are (s : Store) (refs : list rider_ref) (os : list Rider.t) : Prop :=
  Forall2 (fun x o => riders s !! x = Some o) refs os.
Definition drivers_are (s : Store) (refs : list driver_ref) (os : list Driver.t) : Prop :=
  Forall2 (fun x o => drivers s !! x = Some o) refs os.

(** A ride that is in the store, with its rider and its driver. *)
Definition ride_in_store (s : Store) (ride : ride_ref) : Prop :=
  exists r,
    rides s !! ride = Some r
    /\ (forall y, Ride.rider r = Some y -> is_Some (riders s !! y))
    /\ (forall d, Ride.driver r = Some d -> is_Some (drivers s !! d)).

(** Every ride of a rider's history is in the store, with its rider
    and driver. *)
Definition histories_in_store (s : Store) (refs : list rider_ref) : Prop :=
  forall x o ride,
    In x refs -> riders s !! x = Some o -> In ride (Rider.ride_history o) ->
    ride_in_store s ride.

(** Gablu's ride with Karim of [Demo.store1], completed at time 160. *)
Module Saved.
Definition store : Store :=
  Eval vm_compute in fst (reach_destination 1%nat 0%nat 160 Demo.store1).
Definition company : RideSharing :=
  mkRideSharing "QuickRide Bangladesh" [0; 1]%nat [0; 1; 2]%nat 1.
End Saved.
(** * Facts about the numbers *)

Section Numbers.

Lemma this_plus (x y : Qc) : (this (x + y)%Qc == this x + this y)%Q.
Proof. apply Qred_correct. Qed.

Lemma this_minus (x y : Qc) : (this (x - y)%Qc == this x - this y)%Q.
Proof.
  unfold Qcminus. rewrite this_plus. cbn [Qcopp Q2Qc this].
  rewrite Qred_correct. reflexivity.
Qed.

Lemma this_mult (x y : Qc) : (this (x * y)%Qc == this x * this y)%Q.
Proof. apply Qred_correct. Qed.

Lemma this_div (x y : Qc) : (this (x / y)%Qc == this x / this y)%Q.
Proof.
  unfold Qcdiv. rewrite this_mult. cbn [Qcinv Q2Qc this].
  rewrite Qred_correct. reflexivity.
Qed.

Lemma this_of_int (z : Z) : this (PyNum.of_int z) = inject_Z z.
Proof. reflexivity. Qed.

Lemma this_Q2Qc (q : Q) : (this (Q2Qc q) == q)%Q.
Proof. apply Qred_correct. Qed.

Lemma Qc_eq_this (x y : Qc) : x = y <-> (this x == this y)%Q.
Proof. split; [intros ->; reflexivity | apply Qc_is_canon]. Qed.

Lemma truthy_pos (d : Qc) : (Q2Qc 0 < d)%Qc -> PyNum.truthy d = true.
Proof.
  intros H. unfold PyNum.truthy. apply bool_decide_eq_true.
  intros ->. exact (Qclt_not_eq _ _ H eq_refl).
Qed.

Lemma truthy_zero : PyNum.truthy (Q2Qc 0) = false.
Proof. reflexivity. Qed.

Lemma truthy_spec (d : Qc) : PyNum.truthy d = true <-> d <> Q2Qc 0.
Proof. unfold PyNum.truthy. apply bool_decide_eq_true. Qed.

Lemma geb_spec (x y : Qc) : PyNum.geb x y = true <-> (y <= x)%Qc.
Proof. unfold PyNum.geb. apply bool_decide_eq_true. Qed.

Lemma geb_false (x y : Qc) : PyNum.geb x y = false <-> (x < y)%Qc.
Proof.
  unfold PyNum.geb. rewrite bool_decide_eq_false. symmetry. apply Qclt_nge.
Qed.

Lemma gtb_spec (x y : Qc) : PyNum.gtb x y = true <-> (y < x)%Qc.
Proof. unfold PyNum.gtb. apply bool_decide_eq_true. Qed.

Lemma gtb_false (x y : Qc) : PyNum.gtb x y = false <-> (x <= y)%Qc.
Proof.
  unfold PyNum.gtb. rewrite bool_decide_eq_false. symmetry. apply Qcle_ngt.
Qed.

(** The integer that [round_half_even] picks is within one half of
    its argument, and is even when the argument is half-way. *)
Lemma round_half_even_bounds (q : Qc) :
  let k := PyNum.round_half_even q in
  let n := Qnum (this q) in
  let d := Z.pos (Qden (this q)) in
  (2 * k - 1) * d <= 2 * n <= (2 * k + 1) * d
  /\ ((2 * n = (2 * k - 1) * d \/ 2 * n = (2 * k + 1) * d) -> Z.even k = true).
Proof.
  intros k n d. subst k. unfold PyNum.round_half_even. fold n d.
  assert (Hd : 0 < d) by (subst d; lia).
  pose proof (Z.div_mod n d ltac:(lia)) as Hdm.
  pose proof (Z.mod_pos_bound n d Hd) as Hr.
  set (f := n / d) in *. set (r := n mod d) in *.
  destruct (Z.compare_spec (2 * r) d) as [He|Hl|Hg].
  - destruct (Z.even f) eqn:Hev.
    + split; [nia|]. intros _. exact Hev.
    + split; [nia|]. intros _.
      rewrite Z.even_add, Hev. reflexivity.
  - split; [nia|]. intros [H|H]; exfalso; nia.
  - split; [nia|]. intros [H|H]; exfalso; nia.
Qed.

Lemma round_half_even_near (x : Qc) :
  let k := inject_Z (PyNum.round_half_even x) in
  (2 * k - 1 <= 2 * this x <= 2 * k + 1)%Q.
Proof.
  intros k. subst k.
  destruct (round_half_even_bounds x) as [[H1 H2] _].
  destruct x as [[n d] c]. simpl in *.
  set (k := PyNum.round_half_even _) in *. clearbody k.
  unfold Qle, Qmult, Qminus, Qplus, Qopp, inject_Z. cbn [Qnum Qden].
  split; lia.
Qed.

Lemma round_half_even_tie (x : Qc) :
  let k := PyNum.round_half_even x in
  (2 * this x == 2 * inject_Z k - 1 \/ 2 * this x == 2 * inject_Z k + 1)%Q ->
  Z.even k = true.
Proof.
  intros k H. destruct (round_half_even_bounds x) as [_ Htie].
  apply Htie. fold k. clearbody k.
  destruct x as [[n d] c]; cbn [this Qnum Qden] in *.
  unfold Qeq, Qmult, Qminus, Qplus, Qopp, inject_Z in H.
  cbn [Qnum Qden] in H. lia.
Qed.

End Numbers.

Ltac qc_to_q :=
  unfold half_cent, Qcle, Qclt in *;
  repeat (rewrite ?this_plus, ?this_minus, ?this_mult, ?this_div,
            ?this_of_int, ?this_Q2Qc in * );
  unfold Qdiv in *;
  change (/ inject_Z 100)%Q with (1 # 100)%Q in *;
  change (/ inject_Z 200)%Q with (1 # 200)%Q in *.

Lemma round2_rounded (x : Qc) : rounded_to_2_decimals x (PyNum.round2 x).
Proof.
  unfold rounded_to_2_decimals, PyNum.round2.
  set (q := (x * PyNum.of_int 100)%Qc).
  exists (PyNum.round_half_even q). split; [reflexivity|].
  pose proof (round_half_even_near q) as [Hlo Hhi].
  pose proof (round_half_even_tie q) as Htie.
  assert (Hq : (this q == this x * 100)%Q).
  { subst q. rewrite this_mult. reflexivity. }
  cbv zeta in Htie.
  set (k := PyNum.round_half_even q) in *. clearbody k.
  rewrite Hq in *. clear Hq q.
  repeat split.
  - qc_to_q. lra.
  - qc_to_q. lra.
  - intros [H|H]; apply Htie; rewrite Qc_eq_this in H; qc_to_q;
      [left|right]; lra.
Qed.

(** A whole number of hundredths is its own rounding. *)
Lemma round2_hundredths (n : Z) :
  PyNum.round2 (PyNum.of_int n / PyNum.of_int 100)%Qc
  = (PyNum.of_int n / PyNum.of_int 100)%Qc.
Proof.
  destruct (round2_rounded (PyNum.of_int n / PyNum.of_int 100)%Qc)
    as (m & Hm & Hlo & Hhi & _).
  rewrite Hm in *. clear Hm.
  assert (m = n) as ->; [|reflexivity].
  qc_to_q.
  assert (H1 : (inject_Z (2 * m) <= inject_Z (2 * n + 1))%Q).
  { rewrite inject_Z_plus, !inject_Z_mult.
    change (inject_Z 2) with 2%Q. change (inject_Z 1) with 1%Q. lra. }
  assert (H2 : (inject_Z (2 * n) <= inject_Z (2 * m + 1))%Q).
  { rewrite inject_Z_plus, !inject_Z_mult.
    change (inject_Z 2) with 2%Q. change (inject_Z 1) with 1%Q. lra. }
  rewrite <- Zle_Qle in H1, H2. lia.
Qed.

Lemma round2_of_int (n : Z) : PyNum.round2 (PyNum.of_int n) = PyNum.of_int n.
Proof.
  assert (H : PyNum.of_int n = (PyNum.of_int (n * 100) / PyNum.of_int 100)%Qc).
  { apply Qc_eq_this. qc_to_q. rewrite inject_Z_mult.
    change (inject_Z 100) with 100%Q. field. }
  rewrite H at 1. rewrite round2_hundredths. symmetry. exact H.
Qed.

Lemma randint_range (a b : Z) (entropy : N) :
  a <= b -> a <= PyNum.randint a b entropy <= b.
Proof.
  intros H. unfold PyNum.randint.
  pose proof (Z.mod_pos_bound (Z.of_N entropy) (b - a + 1) ltac:(lia)). lia.
Qed.

(** Every integer of the range is sampled at some entropy. *)
Lemma randint_onto (a b n : Z) :
  a <= n <= b -> exists entropy, PyNum.randint a b entropy = n.
Proof.
  intros H. exists (Z.to_N (n - a)). unfold PyNum.randint.
  rewrite Z2N.id by lia. rewrite Z.mod_small by lia. lia.
Qed.

(** * Creating a ride *)

Lemma distance_or_random_supplied (d : Qc) (entropy : N) :
  (Q2Qc 0 < d)%Qc -> distance_or_random (Some d) entropy = d.
Proof. intros H. unfold distance_or_random. rewrite truthy_pos; auto. Qed.

Lemma Ride_init_vehicle start_location end_location v distance entropy :
  Ride_init start_location end_location (Some v) distance entropy
  = Return (Ride.mk start_location end_location None None None None (Some v)
              (distance_or_random distance entropy)
              (PyNum.round2 (PyNum.of_int 50
                             + distance_or_random distance entropy * rate v)%Qc)
              false false CANCELLATION_FEE None).
Proof. reflexivity. Qed.



(** With a whole number of kilometres and a whole rate nothing is
    rounded away. *)
Lemma fare_of_whole_numbers start_location end_location v (d r : Z) entropy :
  0 < d -> rate v = PyNum.of_int r ->
  exists x,
    Ride_init start_location end_location (Some v) (Some (PyNum.of_int d)) entropy
    = Return x
    /\ Ride.estimated_fare x = PyNum.of_int (50 + d * r).
Proof.
  intros Hd Hr. rewrite Ride_init_vehicle.
  rewrite distance_or_random_supplied.
  - eexists. split; [reflexivity|]. cbn [Ride.estimated_fare]. rewrite Hr.
    assert (E : (PyNum.of_int 50 + PyNum.of_int d * PyNum.of_int r)%Qc
                = PyNum.of_int (50 + d * r)).
    { apply Qc_eq_this. qc_to_q. rewrite inject_Z_plus, inject_Z_mult.
      reflexivity. }
    rewrite E. apply round2_of_int.
  - change (inject_Z 0 < inject_Z d)%Q. rewrite <- Zlt_Qlt. exact Hd.
Qed.


(** * The default distance *)

Lemma distance_or_random_default (distance : option Qc) (entropy : N) :
  distance = None \/ distance = Some (Q2Qc 0) ->
  distance_or_random distance entropy
  = PyNum.of_int (PyNum.randint 5 25 entropy).
Proof. intros [->| ->]; reflexivity. Qed.

Lemma of_int_inj (a b : Z) : PyNum.of_int a = PyNum.of_int b -> a = b.
Proof.
  intros H. apply (f_equal this) in H. rewrite !this_of_int in H.
  injection H. auto.
Qed.

Lemma distance_or_random_nonzero (distance : option Qc) (entropy : N) :
  distance_or_random distance entropy <> Q2Qc 0.
Proof.
  assert (R : PyNum.of_int (PyNum.randint 5 25 entropy) <> Q2Qc 0).
  { intros H. apply (f_equal this) in H. rewrite this_of_int in H.
    change (this (Q2Qc 0)) with (inject_Z 0) in H. injection H as H.
    pose proof (randint_range 5 25 entropy ltac:(lia)). lia. }
  unfold distance_or_random. destruct distance as [d|]; [|exact R].
  destruct (PyNum.truthy d) eqn:E; [|exact R].
  apply truthy_spec. exact E.
Qed.

(** C10.  A supplied distance of 0 is treated as no distance: the
    ride gets the sampled distance, an integer of 5..25.  So does
    every ride whose distance was defaulted, and no constructed ride
    has distance 0. *)
Theorem zero_distance_is_defaulted (start_location end_location : string)
    (vehicle : option Vehicle) (distance : option Qc) (entropy : N)
    (r : Ride.t) :
  Ride_init start_location end_location vehicle distance entropy = Return r ->
  Ride.distance r <> Q2Qc 0
  /\ Ride_init start_location end_location vehicle (Some (Q2Qc 0)) entropy
     = Ride_init start_location end_location vehicle None entropy
  /\ (distance = None \/ distance = Some (Q2Qc 0) ->
      Ride.distance r = PyNum.of_int (PyNum.randint 5 25 entropy)
      /\ 5 <= PyNum.randint 5 25 entropy <= 25).
Proof.
  intros H. destruct vehicle as [v|]; [|discriminate].
  rewrite Ride_init_vehicle in H. injection H as <-.
  cbn [Ride.distance]. split; [apply distance_or_random_nonzero|].
  split; [reflexivity|]. intros Hd. split.
  - apply distance_or_random_default. exact Hd.
  - apply randint_range. lia.
Qed.

Lemma zero_distance_is_defaulted_witness :
  let r := Ride.mk "Mohakhali" "Gulshan" None None None None
             (Some (Bike "DHK-5678" Bike_default_rate))
             (PyNum.of_int 12) (PyNum.round2 (PyNum.of_int 50 + PyNum.of_int 12 * Bike_default_rate)%Qc)
             false false CANCELLATION_FEE None in
  Ride.distance r <> Q2Qc 0
  /\ Ride_init "Mohakhali" "Gulshan" (Some (Bike "DHK-5678" Bike_default_rate))
       (Some (Q2Qc 0)) 7%N
     = Ride_init "Mohakhali" "Gulshan" (Some (Bike "DHK-5678" Bike_default_rate))
         None 7%N
  /\ (Some (Q2Qc 0) = None \/ Some (Q2Qc 0) = Some (Q2Qc 0) ->
      Ride.distance r = PyNum.of_int (PyNum.randint 5 25 7%N)
      /\ 5 <= PyNum.randint 5 25 7%N <= 25).
Proof.
  intros r.
  apply (zero_distance_is_defaulted "Mohakhali" "Gulshan"
           (Some (Bike "DHK-5678" Bike_default_rate)) (Some (Q2Qc 0)) 7%N r).
  reflexivity.
Defined.

(** * Running the primitives of the store *)

Section StoreFacts.

Lemma bind_ret {A B} (a : A) (k : A -> Py B) (s : Store) :
  bind (ret a) k s = k a s.
Proof. reflexivity. Qed.

Lemma bind_assoc {A B C} (c : Py A) (k1 : A -> Py B) (k2 : B -> Py C) (s : Store) :
  bind (bind c k1) k2 s = bind c (fun a => bind (k1 a) k2) s.
Proof. unfold bind. destruct (c s) as [s' [a|e|]]; reflexivity. Qed.

Lemma bind_run {A B} (c : Py A) (k : A -> Py B) (s s' : Store) (a : A) :
  c s = (s', Return a) -> bind c k s = k a s'.
Proof. intros H. unfold bind. rewrite H. reflexivity. Qed.

Lemma bind_raise {A B} (c : Py A) (k : A -> Py B) (s s' : Store) (e : exn) :
  c s = (s', Raise e) -> bind c k s = (s', Raise e).
Proof. intros H. unfold bind. rewrite H. reflexivity. Qed.

Lemma get_rider_run s x o :
  riders s !! x = Some o -> get_rider x s = (s, Return o).
Proof. intros H. unfold get_rider. rewrite H. reflexivity. Qed.

Lemma get_driver_run s x o :
  drivers s !! x = Some o -> get_driver x s = (s, Return o).
Proof. intros H. unfold get_driver. rewrite H. reflexivity. Qed.

Lemma get_ride_run s x o :
  rides s !! x = Some o -> get_ride x s = (s, Return o).
Proof. intros H. unfold get_ride. rewrite H. reflexivity. Qed.

Lemma upd_rider_run s x o f :
  riders s !! x = Some o -> upd_rider x f s = (put_rider x (f o) s, Return tt).
Proof.
  intros H. unfold upd_rider. rewrite (bind_run _ _ _ _ _ (get_rider_run _ _ _ H)).
  reflexivity.
Qed.

Lemma upd_driver_run s x o f :
  drivers s !! x = Some o -> upd_driver x f s = (put_driver x (f o) s, Return tt).
Proof.
  intros H. unfold upd_driver. rewrite (bind_run _ _ _ _ _ (get_driver_run _ _ _ H)).
  reflexivity.
Qed.

Lemma upd_ride_run s x o f :
  rides s !! x = Some o -> upd_ride x f s = (put_ride x (f o) s, Return tt).
Proof.
  intros H. unfold upd_ride. rewrite (bind_run _ _ _ _ _ (get_ride_run _ _ _ H)).
  reflexivity.
Qed.

(** Reading back what was put. *)
Lemma riders_put_rider s x o o0 :
  riders s !! x = Some o0 -> riders (put_rider x o s) !! x = Some o.
Proof.
  intros H. cbn [put_rider riders]. apply list_lookup_insert_eq.
  eapply lookup_lt_Some; eauto.
Qed.

Lemma drivers_put_driver s x o o0 :
  drivers s !! x = Some o0 -> drivers (put_driver x o s) !! x = Some o.
Proof.
  intros H. cbn [put_driver drivers]. apply list_lookup_insert_eq.
  eapply lookup_lt_Some; eauto.
Qed.

Lemma rides_put_ride s x o o0 :
  rides s !! x = Some o0 -> rides (put_ride x o s) !! x = Some o.
Proof.
  intros H. cbn [put_ride rides]. apply list_lookup_insert_eq.
  eapply lookup_lt_Some; eauto.
Qed.

Lemma riders_put_rider_ne s x y o :
  x <> y -> riders (put_rider x o s) !! y = riders s !! y.
Proof. intros H. cbn [put_rider riders]. apply list_lookup_insert_ne. exact H. Qed.

Lemma drivers_put_driver_ne s x y o :
  x <> y -> drivers (put_driver x o s) !! y = drivers s !! y.
Proof. intros H. cbn [put_driver drivers]. apply list_lookup_insert_ne. exact H. Qed.

Lemma rides_put_ride_ne s x y o :
  x <> y -> rides (put_ride x o s) !! y = rides s !! y.
Proof. intros H. cbn [put_ride rides]. apply list_lookup_insert_ne. exact H. Qed.

Lemma put_rider_twice s x o o' :
  put_rider x o' (put_rider x o s) = put_rider x o' s.
Proof. unfold put_rider. cbn. rewrite list_insert_insert_eq. reflexivity. Qed.

Lemma put_driver_twice s x o o' :
  put_driver x o' (put_driver x o s) = put_driver x o' s.
Proof. unfold put_driver. cbn. rewrite list_insert_insert_eq. reflexivity. Qed.

Lemma put_ride_twice s x o o' :
  put_ride x o' (put_ride x o s) = put_ride x o' s.
Proof. unfold put_ride. cbn. rewrite list_insert_insert_eq. reflexivity. Qed.

End StoreFacts.

(** Lookups in a store that went through some updates. *)
Ltac look :=
  repeat first
    [ progress cbn [riders drivers rides put_rider put_driver put_ride add_ride]
    | rewrite list_lookup_insert_eq
        by (rewrite ?length_insert; eapply lookup_lt_Some; eassumption)
    | rewrite list_insert_insert_eq ].

Ltac found := look; first [eassumption | reflexivity].

(** One step of a method: run its first primitive on the object that
    the store holds. *)
Ltac step :=
  first
    [ rewrite bind_assoc
    | rewrite bind_ret
    | erewrite (bind_run (upd_ride _ _)); [|apply upd_ride_run; found]
    | erewrite (bind_run (upd_rider _ _)); [|apply upd_rider_run; found]
    | erewrite (bind_run (upd_driver _ _)); [|apply upd_driver_run; found]
    | erewrite (bind_run (get_ride _)); [|apply get_ride_run; found]
    | erewrite (bind_run (get_rider _)); [|apply get_rider_run; found]
    | erewrite (bind_run (get_driver _)); [|apply get_driver_run; found]
    | erewrite upd_ride_run; [|found]
    | erewrite upd_rider_run; [|found]
    | erewrite upd_driver_run; [|found] ].

(** Two stores are compared arena by arena. *)
Ltac same_store :=
  unfold put_rider, put_driver, put_ride, add_ride;
  cbn [riders drivers rides];
  rewrite ?list_insert_insert_eq; reflexivity.

(** * Completing a ride *)

Section Completing.

Variables (s : Store) (ride : ride_ref) (r : Ride.t) (now : datetime).
Variables (x : rider_ref) (o : Rider.t) (d : driver_ref) (dv : Driver.t).
Hypothesis Hride : rides s !! ride = Some r.
Hypothesis Hrider : Ride.rider r = Some x.
Hypothesis Hdriver : Ride.driver r = Some d.
Hypothesis Ho : riders s !! x = Some o.
Hypothesis Hdv : drivers s !! d = Some dv.


(** [end_ride] on a ride that was started.  Nothing in it looks at
    [is_completed] or [is_cancelled]. *)
Lemma end_ride_run :
  is_Some (Ride.start_time r) ->
  end_ride ride now s
  = (mkStore (<[x := rider_after_ride ride (Ride.estimated_fare r) o]> (riders s))
             (<[d := Driver.set_wallet (Driver.wallet dv + Ride.estimated_fare r)%Qc dv]> (drivers s))
             (<[ride := ride_after_ride now r]> (rides s)),
     Return tt).
Proof.
  intros [t Ht]. unfold end_ride. do 3 step.
  cbn [Ride.set_is_completed Ride.set_end_time Ride.rider Ride.driver
       Ride.estimated_fare Ride.start_time].
  rewrite Hrider, Hdriver, Ht. unfold attr_of. repeat step.
  unfold ret. f_equal. same_store.
Qed.

(** On a ride that was never started the settlement is done and then
    the computation of the duration raises. *)
Lemma end_ride_not_started :
  Ride.start_time r = None ->
  end_ride ride now s
  = (mkStore (<[x := rider_after_ride ride (Ride.estimated_fare r) o]> (riders s))
             (<[d := Driver.set_wallet (Driver.wallet dv + Ride.estimated_fare r)%Qc dv]> (drivers s))
             (<[ride := ride_after_ride now r]> (rides s)),
     Raise TypeError).
Proof.
  intros Ht. unfold end_ride. do 3 step.
  cbn [Ride.set_is_completed Ride.set_end_time Ride.rider Ride.driver
       Ride.estimated_fare Ride.start_time].
  rewrite Hrider, Hdriver, Ht. unfold attr_of. repeat step.
  unfold raise. f_equal. same_store.
Qed.

(** [reach_destination], called on the driver of the ride as
    [complete_ride] of main.py does. *)
Lemma reach_destination_run :
  is_Some (Ride.start_time r) ->
  reach_destination d ride now s
  = (mkStore (<[x := rider_after_ride ride (Ride.estimated_fare r) o]> (riders s))
             (<[d := driver_after_ride ride (Ride.estimated_fare r) dv]> (drivers s))
             (<[ride := ride_after_ride now r]> (rides s)),
     Return tt).
Proof.
  intros Ht. unfold reach_destination.
  erewrite (bind_run (end_ride _ _)); [|apply end_ride_run; exact Ht].
  repeat step. f_equal. same_store.
Qed.

End Completing.

(** C3.  Completing an in-progress ride moves the fare from the
    rider's wallet to the driver's, whatever the rider's balance is,
    appends the ride to the rider's history, clears the rider's
    current ride, counts one more ride for the driver and makes the
    driver available. *)
Theorem complete_settles_the_ride (s : Store) (ride : ride_ref) (r : Ride.t)
    (now : datetime) (x : rider_ref) (o : Rider.t) (d : driver_ref)
    (dv : Driver.t) :
  rides s !! ride = Some r -> in_progress r ->
  Ride.rider r = Some x -> Ride.driver r = Some d ->
  riders s !! x = Some o -> drivers s !! d = Some dv ->
  exists s' o' dv' r',
    reach_destination d ride now s = (s', Return tt)
    /\ riders s' !! x = Some o' /\ drivers s' !! d = Some dv'
    /\ rides s' !! ride = Some r'
    /\ Rider.wallet o' = (Rider.wallet o - Ride.estimated_fare r)%Qc
    /\ Driver.wallet dv' = (Driver.wallet dv + Ride.estimated_fare r)%Qc
    /\ Rider.ride_history o' = Rider.ride_history o ++ [ride]
    /\ Rider.current_ride o' = None
    /\ Driver.total_rides dv' = Driver.total_rides dv + 1
    /\ Driver.is_available dv' = true
    /\ Ride.status_of r' = Ride.Completed.
Proof.
  intros Hride [Hst Hstart] Hrider Hdriver Ho Hdv.
  exists (mkStore (<[x := rider_after_ride ride (Ride.estimated_fare r) o]> (riders s))
                  (<[d := driver_after_ride ride (Ride.estimated_fare r) dv]> (drivers s))
                  (<[ride := ride_after_ride now r]> (rides s))).
  exists (rider_after_ride ride (Ride.estimated_fare r) o),
         (driver_after_ride ride (Ride.estimated_fare r) dv),
         (ride_after_ride now r).
  split; [eapply reach_destination_run; eassumption|].
  cbn [riders drivers rides].
  split; [apply list_lookup_insert_eq; eapply lookup_lt_Some; eassumption|].
  split; [apply list_lookup_insert_eq; eapply lookup_lt_Some; eassumption|].
  split; [apply list_lookup_insert_eq; eapply lookup_lt_Some; eassumption|].
  repeat split.
  unfold Ride.status_of in *. cbn.
  destruct (Ride.is_cancelled r); [discriminate|reflexivity].
Qed.

Lemma complete_settles_the_ride_witness :
  exists s' o' dv' r',
    reach_destination 1%nat 0%nat 160 Demo.store1 = (s', Return tt)
    /\ riders s' !! 0%nat = Some o' /\ drivers s' !! 1%nat = Some dv'
    /\ rides s' !! 0%nat = Some r'
    /\ Rider.wallet o'
       = (Rider.wallet (Rider.set_current_ride (Some 0%nat) Demo.gablu)
          - Ride.estimated_fare Demo.ride0)%Qc
    /\ Driver.wallet dv'
       = (Driver.wallet (Driver.set_is_available false Demo.karim)
          + Ride.estimated_fare Demo.ride0)%Qc
    /\ Rider.ride_history o'
       = Rider.ride_history (Rider.set_current_ride (Some 0%nat) Demo.gablu) ++ [0%nat]
    /\ Rider.current_ride o' = None
    /\ Driver.total_rides dv'
       = Driver.total_rides (Driver.set_is_available false Demo.karim) + 1
    /\ Driver.is_available dv' = true
    /\ Ride.status_of r' = Ride.Completed.
Proof.
  apply (complete_settles_the_ride Demo.store1 0%nat Demo.ride0 160 0%nat
           (Rider.set_current_ride (Some 0%nat) Demo.gablu) 1%nat
           (Driver.set_is_available false Demo.karim)).
  - reflexivity.
  - split; [reflexivity | eexists; reflexivity].
  - reflexivity.
  - reflexivity.
  - reflexivity.
  - reflexivity.
Defined.

(** The sample store is the one that the request of the sample run
    produces. *)
Example demo_request_ride :
  request_ride 0%nat Demo.company "Gulshan" "bike" 5%N 100 Demo.store0
  = (Demo.store1, Return (Some 0%nat)).
Proof. vm_compute. reflexivity. Qed.

(** * Cancelling a ride *)

Lemma status_in_progress (r : Ride.t) :
  Ride.status_of r = Ride.InProgress <->
  Ride.is_completed r = false /\ Ride.is_cancelled r = false.
Proof.
  unfold Ride.status_of.
  destruct (Ride.is_cancelled r), (Ride.is_completed r); split;
    (discriminate || tauto || (intros [? ?]; discriminate)).
Qed.

(** A ride that is completed or cancelled is not cancelled again: the
    call answers [False] and leaves the store as it is. *)
Lemma cancel_terminal (s : Store) (ride : ride_ref) (r : Ride.t)
    (cancelled_by : string) (now : datetime) :
  rides s !! ride = Some r ->
  Ride.status_of r <> Ride.InProgress ->
  cancel_ride ride cancelled_by now s = (s, Return (Some false)).
Proof.
  intros Hride Hst. unfold cancel_ride. step.
  destruct (Ride.is_completed r) eqn:E1; [reflexivity|].
  destruct (Ride.is_cancelled r) eqn:E2; [reflexivity|].
  exfalso. apply Hst. apply status_in_progress. auto.
Qed.

(** C6.  Cancelling an in-progress ride.  When the rider cancels and
    has at least the fee of 20, the fee moves from the rider to the
    bound driver; when the rider has less, or when the driver cancels,
    no wallet changes.  In every case the ride becomes cancelled and a
    bound driver becomes available. *)
Theorem cancel_in_progress (s : Store) (ride : ride_ref) (r : Ride.t)
    (now : datetime) (cancelled_by : string) (x : rider_ref) (o : Rider.t) :
  rides s !! ride = Some r ->
  Ride.status_of r = Ride.InProgress ->
  Ride.cancellation_fee r = CANCELLATION_FEE ->
  Ride.rider r = Some x -> riders s !! x = Some o ->
  (forall d, Ride.driver r = Some d -> is_Some (drivers s !! d)) ->
  exists s' o' r',
    cancel_ride ride cancelled_by now s = (s', Return None)
    /\ riders s' !! x = Some o' /\ rides s' !! ride = Some r'
    /\ Ride.status_of r' = Ride.Cancelled
    /\ (cancelled_by = "rider" -> (PyNum.of_int 20 <= Rider.wallet o)%Qc ->
        Rider.wallet o' = (Rider.wallet o - PyNum.of_int 20)%Qc)
    /\ (cancelled_by = "rider" -> (Rider.wallet o < PyNum.of_int 20)%Qc ->
        riders s' = riders s)
    /\ (cancelled_by <> "rider" -> riders s' = riders s)
    /\ (Ride.driver r = None -> drivers s' = drivers s)
    /\ (forall d dv, Ride.driver r = Some d -> drivers s !! d = Some dv ->
        exists dv',
          drivers s' !! d = Some dv' /\ Driver.is_available dv' = true
          /\ (cancelled_by = "rider" -> (PyNum.of_int 20 <= Rider.wallet o)%Qc ->
              Driver.wallet dv' = (Driver.wallet dv + PyNum.of_int 20)%Qc)
          /\ (cancelled_by = "rider" -> (Rider.wallet o < PyNum.of_int 20)%Qc ->
              Driver.wallet dv' = Driver.wallet dv)
          /\ (cancelled_by <> "rider" -> Driver.wallet dv' = Driver.wallet dv)).
Proof.
  intros Hride Hst Hfee Hrider Ho Hdrv.
  apply status_in_progress in Hst as [Hc1 Hc2].
  assert (Hcancelled : forall r0, Ride.is_cancelled r0 = true ->
            Ride.status_of r0 = Ride.Cancelled).
  { intros r0 H. unfold Ride.status_of. rewrite H. reflexivity. }
  unfold cancel_ride. step. rewrite Hc1, Hc2. do 2 step.
  cbn [Ride.set_is_cancelled Ride.set_end_time Ride.rider Ride.driver
       Ride.cancellation_fee].
  rewrite Hfee.
  destruct (String.eqb_spec cancelled_by "rider") as [Hby|Hby].
  - rewrite Hrider. unfold attr_of. repeat step.
    destruct (PyNum.geb (Rider.wallet o) CANCELLATION_FEE) eqn:Hgeb.
    + apply geb_spec in Hgeb.
      assert (Hnlt : ~ (Rider.wallet o < PyNum.of_int 20)%Qc)
        by (apply Qcle_not_lt; exact Hgeb).
      destruct (Ride.driver r) as [d|] eqn:Hd.
      * destruct (Hdrv d eq_refl) as [dv Hdv]. repeat step.
        do 3 eexists. split; [reflexivity|]. look.
        split; [reflexivity|]. split; [reflexivity|].
        split; [apply Hcancelled; reflexivity|].
        split; [reflexivity|]. split; [tauto|]. split; [tauto|].
        split; [discriminate|].
        intros d' dv' [= <-] Hdv'. rewrite Hdv in Hdv'. injection Hdv' as <-.
        look. eexists. split; [reflexivity|]. split; [reflexivity|].
        split; [reflexivity|]. split; tauto.
      * repeat step.
        do 3 eexists. split; [reflexivity|]. look.
        split; [reflexivity|]. split; [reflexivity|].
        split; [apply Hcancelled; reflexivity|].
        split; [reflexivity|]. split; [tauto|]. split; [tauto|].
        split; [reflexivity|]. discriminate.
    + apply geb_false in Hgeb.
      assert (Hnle : ~ (PyNum.of_int 20 <= Rider.wallet o)%Qc)
        by (apply Qclt_not_le; exact Hgeb).
      destruct (Ride.driver r) as [d|] eqn:Hd.
      * destruct (Hdrv d eq_refl) as [dv Hdv]. repeat step.
        do 3 eexists. split; [reflexivity|]. look.
        split; [eassumption|]. split; [reflexivity|].
        split; [apply Hcancelled; reflexivity|].
        split; [tauto|]. split; [reflexivity|]. split; [reflexivity|].
        split; [discriminate|].
        intros d' dv' [= <-] Hdv'. rewrite Hdv in Hdv'. injection Hdv' as <-.
        look. eexists. split; [reflexivity|]. split; [reflexivity|].
        split; [tauto|]. split; reflexivity.
      * repeat step.
        do 3 eexists. split; [reflexivity|]. look.
        split; [eassumption|]. split; [reflexivity|].
        split; [apply Hcancelled; reflexivity|].
        split; [tauto|]. split; [reflexivity|]. split; [reflexivity|].
        split; [reflexivity|]. discriminate.
  - destruct (Ride.driver r) as [d|] eqn:Hd.
    + destruct (Hdrv d eq_refl) as [dv Hdv]. repeat step.
      do 3 eexists. split; [reflexivity|]. look.
      split; [eassumption|]. split; [reflexivity|].
      split; [apply Hcancelled; reflexivity|].
      split; [tauto|]. split; [reflexivity|]. split; [reflexivity|].
      split; [discriminate|].
      intros d' dv' [= <-] Hdv'. rewrite Hdv in Hdv'. injection Hdv' as <-.
      look. eexists. split; [reflexivity|]. split; [reflexivity|].
      split; [tauto|]. split; reflexivity.
    + repeat step.
      do 3 eexists. split; [reflexivity|]. look.
      split; [eassumption|]. split; [reflexivity|].
      split; [apply Hcancelled; reflexivity|].
      split; [tauto|]. split; [reflexivity|]. split; [reflexivity|].
      split; [reflexivity|]. discriminate.
Qed.

Lemma cancel_in_progress_witness :
  exists s' o' r',
    cancel_ride 0%nat "rider" 130 Demo.store1 = (s', Return None)
    /\ riders s' !! 0%nat = Some o' /\ rides s' !! 0%nat = Some r'
    /\ Ride.status_of r' = Ride.Cancelled
    /\ ("rider" = "rider" ->
        (PyNum.of_int 20 <= Rider.wallet (Rider.set_current_ride (Some 0%nat) Demo.gablu))%Qc ->
        Rider.wallet o'
        = (Rider.wallet (Rider.set_current_ride (Some 0%nat) Demo.gablu)
           - PyNum.of_int 20)%Qc)
    /\ ("rider" = "rider" ->
        (Rider.wallet (Rider.set_current_ride (Some 0%nat) Demo.gablu) < PyNum.of_int 20)%Qc ->
        riders s' = riders Demo.store1)
    /\ ("rider" <> "rider" -> riders s' = riders Demo.store1)
    /\ (Ride.driver Demo.ride0 = None -> drivers s' = drivers Demo.store1)
    /\ (forall d dv, Ride.driver Demo.ride0 = Some d ->
        drivers Demo.store1 !! d = Some dv ->
        exists dv',
          drivers s' !! d = Some dv' /\ Driver.is_available dv' = true
          /\ ("rider" = "rider" ->
              (PyNum.of_int 20 <= Rider.wallet (Rider.set_current_ride (Some 0%nat) Demo.gablu))%Qc ->
              Driver.wallet dv' = (Driver.wallet dv + PyNum.of_int 20)%Qc)
          /\ ("rider" = "rider" ->
              (Rider.wallet (Rider.set_current_ride (Some 0%nat) Demo.gablu) < PyNum.of_int 20)%Qc ->
              Driver.wallet dv' = Driver.wallet dv)
          /\ ("rider" <> "rider" -> Driver.wallet dv' = Driver.wallet dv)).
Proof.
  apply (cancel_in_progress Demo.store1 0%nat Demo.ride0 130 "rider" 0%nat
           (Rider.set_current_ride (Some 0%nat) Demo.gablu)).
  - reflexivity.
  - reflexivity.
  - reflexivity.
  - reflexivity.
  - reflexivity.
  - intros d [= <-]. eexists. reflexivity.
Defined.

(** C5.  A cancelled ride can still be completed: [end_ride] tests
    neither flag.  In the sample run Gablu cancels the ride and pays
    the fee; completing the same ride afterwards succeeds, marks it
    completed and takes the whole fare as well. *)
Theorem cancelled_ride_can_be_completed :
  exists r2 o2 r3 o3 d3,
    cancel_ride 0%nat "rider" 130 Demo.store1 = (Demo.store2, Return None)
    /\ rides Demo.store2 !! 0%nat = Some r2
    /\ Ride.status_of r2 = Ride.Cancelled
    /\ riders Demo.store2 !! 0%nat = Some o2
    /\ Rider.wallet o2 = PyNum.of_int 980
    /\ Rider.current_ride o2 = Some 0%nat
    /\ reach_destination 1%nat 0%nat 160 Demo.store2 = (Demo.store3, Return tt)
    /\ rides Demo.store3 !! 0%nat = Some r3
    /\ Ride.is_cancelled r3 = true /\ Ride.is_completed r3 = true
    /\ riders Demo.store3 !! 0%nat = Some o3
    /\ Rider.wallet o3 = PyNum.of_int 730
    /\ Rider.ride_history o3 = [0%nat]
    /\ drivers Demo.store3 !! 1%nat = Some d3
    /\ Driver.wallet d3 = PyNum.of_int 270
    /\ Driver.total_rides d3 = 16.
Proof.
  do 5 eexists.
  split; [vm_compute; reflexivity|].
  split; [reflexivity|]. split; [reflexivity|].
  split; [reflexivity|].
  split; [apply Qc_is_canon; vm_compute; reflexivity|].
  split; [reflexivity|].
  split; [vm_compute; reflexivity|].
  split; [reflexivity|]. split; [reflexivity|]. split; [reflexivity|].
  split; [reflexivity|].
  split; [apply Qc_is_canon; vm_compute; reflexivity|].
  split; [reflexivity|]. split; [reflexivity|].
  split; [apply Qc_is_canon; vm_compute; reflexivity|].
  reflexivity.
Qed.

(** * Rating *)

Lemma bind_lift_return {A B} (o : outcome A) (a : A) (k : A -> Py B) (s : Store) :
  o = Return a -> bind (lift o) k s = k a s.
Proof. intros ->. reflexivity. Qed.










(** * The best rated drivers *)

Section Sorting.

Context {A : Type} (key : A -> Qc * Z).












End Sorting.


(** A negative limit drops items from the end instead. *)
Lemma slice_to_negative {A} (limit : Z) (l : list A) :
  limit < 0 ->
  slice_to limit l = firstn (length l - Z.to_nat (- limit)) l.
Proof.
  intros H. unfold slice_to. destruct (Z.ltb_spec limit 0); [|lia].
  f_equal. lia.
Qed.

Lemma get_drivers_run (s : Store) (l : list driver_ref) :
  Forall (fun x => is_Some (drivers s !! x)) l ->
  exists ds, get_drivers l s = (s, Return ds) /\ snapshot s l ds.
Proof.
  unfold snapshot. induction l as [|x l IH]; intros H.
  - exists []. split; [reflexivity|constructor].
  - apply Forall_cons in H as [[d Hd] Hl].
    destruct (IH Hl) as (ds & Hrun & Hsnap).
    exists ((x, d) :: ds). split.
    + cbn [get_drivers]. step. erewrite bind_run; [|exact Hrun]. reflexivity.
    + constructor; [split; [reflexivity|exact Hd]|exact Hsnap].
Qed.

Lemma snapshot_unique (s : Store) (l : list driver_ref) ds ds' :
  snapshot s l ds -> snapshot s l ds' -> ds = ds'.
Proof.
  unfold snapshot. intros H. revert ds'.
  induction H as [|x [y d] l ds [Hx Hd] _ IH]; intros ds' H'.
  - inversion H'. reflexivity.
  - inversion H' as [|x' [y' d'] l' ds'' [Hx' Hd'] Hrest]; subst.
    cbn in *. subst. rewrite Hd in Hd'. injection Hd' as <-.
    f_equal. apply IH. exact Hrest.
Qed.





(** * Matching *)

Section Maximum.

Context {A : Type} (key : A -> Qc).

(** [max_by] returns an item that no earlier item equals in key and
    no later item exceeds: the first of the greatest. *)
Lemma max_by_split_gen (l p1 p2 : list A) (b : A) :
  Forall (fun y => (key y < key b)%Qc) p1 ->
  Forall (fun y => (key y <= key b)%Qc) p2 ->
  exists l1 l2,
    p1 ++ b :: p2 ++ l = l1 ++ max_by key b l :: l2
    /\ Forall (fun y => (key y < key (max_by key b l))%Qc) l1
    /\ Forall (fun y => (key y <= key (max_by key b l))%Qc) l2.
Proof.
  revert p1 p2 b. induction l as [|x l IH]; intros p1 p2 b H1 H2.
  - exists p1, p2. rewrite app_nil_r. auto.
  - cbn [max_by]. destruct (PyNum.gtb (key x) (key b)) eqn:E.
    + apply gtb_spec in E.
      destruct (IH (p1 ++ b :: p2) [] x) as (l1 & l2 & Heq & Hl1 & Hl2).
      * apply Forall_app. split; [|constructor].
        -- eapply List.Forall_impl; [|exact H1]. cbn. intros y Hy.
           eapply Qclt_trans; eauto.
        -- exact E.
        -- eapply List.Forall_impl; [|exact H2]. cbn. intros y Hy.
           eapply Qcle_lt_trans; eauto.
      * constructor.
      * exists l1, l2. split; [|auto]. rewrite <- Heq.
        rewrite <- app_assoc. reflexivity.
    + apply gtb_false in E.
      destruct (IH p1 (p2 ++ [x]) b) as (l1 & l2 & Heq & Hl1 & Hl2).
      * exact H1.
      * apply Forall_app. split; [exact H2|]. constructor; [exact E|constructor].
      * exists l1, l2. split; [|auto]. rewrite <- Heq.
        rewrite <- app_assoc. reflexivity.
Qed.

Lemma max_by_split (b : A) (l : list A) :
  exists l1 l2,
    b :: l = l1 ++ max_by key b l :: l2
    /\ Forall (fun y => (key y < key (max_by key b l))%Qc) l1
    /\ Forall (fun y => (key y <= key (max_by key b l))%Qc) l2.
Proof. apply (max_by_split_gen l [] [] b); constructor. Qed.

End Maximum.


Lemma filter_filter {A} (P Q : A -> bool) (l : list A) :
  List.filter Q (List.filter P l) = List.filter (fun a => P a && Q a) l.
Proof.
  induction l as [|x l IH]; [reflexivity|]. cbn.
  destruct (P x); cbn; [destruct (Q x)|]; rewrite ?IH; reflexivity.
Qed.

Lemma snapshot_filter (s : Store) (P : driver_ref * Driver.t -> bool) l ds :
  snapshot s l ds ->
  snapshot s (map fst (List.filter P ds)) (List.filter P ds).
Proof.
  unfold snapshot. intros H. induction H as [|x p l ds [Hx Hp] _ IH]; cbn.
  - constructor.
  - destruct (P p); [|exact IH]. cbn. constructor; [|exact IH].
    split; [reflexivity|]. rewrite Hx. exact Hp.
Qed.

Lemma snapshot_valid (s : Store) l ds :
  snapshot s l ds -> Forall (fun x => is_Some (drivers s !! x)) l.
Proof. intros H. induction H as [|x p l ds [_ Hp] _ IH]; constructor; eauto. Qed.

Lemma snapshot_map_fst (s : Store) l ds : snapshot s l ds -> l = map fst ds.
Proof.
  intros H. induction H as [|x p l ds [Hx _] _ IH]; [reflexivity|].
  cbn. rewrite Hx, IH. reflexivity.
Qed.

Lemma snapshot_lookup (s : Store) l ds p :
  snapshot s l ds -> In p ds -> drivers s !! fst p = Some (snd p).
Proof.
  intros H. induction H as [|x q l ds [Hx Hq] _ IH]; intros Hin; [destruct Hin|].
  destruct Hin as [->|Hin]; [rewrite Hx; exact Hq|auto].
Qed.

Lemma get_drivers_snapshot (s : Store) l ds :
  snapshot s l ds -> get_drivers l s = (s, Return ds).
Proof.
  intros H. destruct (get_drivers_run s l (snapshot_valid _ _ _ H))
    as (ds' & Hrun & H').
  rewrite (snapshot_unique _ _ _ _ H H'). exact Hrun.
Qed.

Lemma RideMatching_init_run (s : Store) l ds :
  snapshot s l ds ->
  RideMatching_init l s
  = (s, Return (mkRideMatching
                  (map fst (List.filter (fun p => Driver.is_available (snd p)) ds)))).
Proof.
  intros H. unfold RideMatching_init.
  erewrite bind_run; [|apply get_drivers_snapshot; exact H]. reflexivity.
Qed.



Lemma rides_add_ride_last (s : Store) (r : Ride.t) :
  rides (add_ride r s) !! length (rides s) = Some r.
Proof. cbn [add_ride rides]. apply list_lookup_middle. reflexivity. Qed.

Lemma put_ride_add_ride (s : Store) (r r' : Ride.t) :
  put_ride (length (rides s)) r' (add_ride r s) = add_ride r' s.
Proof.
  unfold put_ride, add_ride. cbn [riders drivers rides]. f_equal.
  rewrite insert_app_r_alt by lia. rewrite Nat.sub_diag. reflexivity.
Qed.

Lemma upd_new_ride_run (s : Store) (r : Ride.t) (f : Ride.t -> Ride.t) :
  upd_ride (length (rides s)) f (add_ride r s) = (add_ride (f r) s, Return tt).
Proof.
  erewrite upd_ride_run; [|apply rides_add_ride_last].
  rewrite put_ride_add_ride. reflexivity.
Qed.

Lemma accept_new_ride_run (s : Store) (r : Ride.t) (x : driver_ref)
    (d : Driver.t) (now : datetime) :
  drivers s !! x = Some d ->
  accept_ride x (length (rides s)) now (add_ride r s)
  = (mkStore (riders s) (<[x := Driver.set_is_available false d]> (drivers s))
             (rides s ++ [accepted_ride x now r]),
     Return tt).
Proof.
  intros Hd. unfold accept_ride, start_ride, set_driver.
  erewrite bind_run; [|apply upd_new_ride_run].
  erewrite bind_run; [|apply upd_new_ride_run].
  erewrite upd_driver_run; [|cbn [add_ride drivers]; exact Hd].
  reflexivity.
Qed.

Section FindDriver.

Variables (s : Store) (self : RideMatching) (ride_request : RideRequest).
Variables (requested : string) (entropy : N) (now : datetime).
Variable ds : list (driver_ref * Driver.t).
Hypothesis Hsnap : snapshot s (available_drivers self) ds.

Lemma find_driver_none :
  List.filter (fun p => has_vehicle_type requested (snd p)) ds = [] ->
  find_driver self ride_request requested entropy now s = (s, Return None).
Proof.
  intros Hf. unfold find_driver.
  destruct (available_drivers self) as [|x l] eqn:El; [reflexivity|].
  erewrite bind_run; [|apply get_drivers_snapshot; exact Hsnap].
  rewrite Hf. reflexivity.
Qed.

Lemma find_driver_some first rest o v :
  List.filter (fun p => has_vehicle_type requested (snd p)) ds = first :: rest ->
  riders s !! rq_rider ride_request = Some o ->
  let best := max_by (fun p => Driver.average_rating (snd p)) first rest in
  Driver.vehicle (snd best) = Some v ->
  drivers s !! fst best = Some (snd best) ->
  find_driver self ride_request requested entropy now s
  = (mkStore (riders s)
       (<[fst best := Driver.set_is_available false (snd best)]> (drivers s))
       (rides s ++ [accepted_ride (fst best) now
                      (matched_ride (Rider.current_location o)
                         (rq_end_location ride_request) v entropy)]),
     Return (Some (length (rides s)))).
Proof.
  intros Hf Ho best Hv Hbest. unfold find_driver.
  destruct (available_drivers self) as [|x l] eqn:El.
  { inversion Hsnap; subst. discriminate. }
  erewrite bind_run; [|apply get_drivers_snapshot; exact Hsnap].
  rewrite Hf. fold best. step.
  unfold Ride_new. rewrite Hv, Ride_init_vehicle. rewrite bind_assoc.
  erewrite bind_lift_return; [|reflexivity].
  unfold new_ride at 1.
  erewrite (bind_run (fun s0 => _)); [|reflexivity].
  erewrite (bind_run (accept_ride _ _ _));
    [|apply (accept_new_ride_run s _ (fst best) (snd best) now Hbest)].
  reflexivity.
Qed.

End FindDriver.




(** An upper-case request is matched with the lower-case type. *)
Example demo_find_driver_upper_case :
  exists s',
    find_driver (mkRideMatching [0; 1; 2]%nat) (mkRideRequest 0%nat "Gulshan")
                "BIKE" 5%N 100 Demo.store0
    = (s', Return (Some 0%nat)).
Proof. eexists. vm_compute. reflexivity. Qed.

(** * A request that the rider cannot pay *)

(** C4.  When the matched ride costs more than the rider has, the
    request is refused and the rider has no current ride, but the
    driver is not released: in the sample run Hablu, available before
    Rina's request, is unavailable after it, bound to a ride that has
    no rider. *)
Theorem unaffordable_request_keeps_driver_bound :
  exists o o' d d' r,
    riders Demo.store0 !! 1%nat = Some o
    /\ Rider.wallet o = PyNum.of_int 100
    /\ drivers Demo.store0 !! 0%nat = Some d
    /\ Driver.is_available d = true
    /\ request_ride 1%nat Demo.company "Gulshan" "car" 5%N 100 Demo.store0
       = (Demo.store4, Return None)
    /\ riders Demo.store4 !! 1%nat = Some o'
    /\ Rider.current_ride o' = None
    /\ rides Demo.store4 !! 0%nat = Some r
    /\ Ride.estimated_fare r = PyNum.of_int 350
    /\ Ride.driver r = Some 0%nat
    /\ Ride.rider r = None
    /\ drivers Demo.store4 !! 0%nat = Some d'
    /\ Driver.is_available d' = false.
Proof.
  do 5 eexists.
  split; [reflexivity|]. split; [reflexivity|].
  split; [reflexivity|]. split; [reflexivity|].
  split; [vm_compute; reflexivity|].
  split; [reflexivity|]. split; [reflexivity|].
  split; [reflexivity|].
  split; [apply Qc_is_canon; vm_compute; reflexivity|].
  split; [reflexivity|]. split; [reflexivity|].
  split; [reflexivity|]. reflexivity.
Qed.

Lemma try_except_return {A} (c : Py A) (h : exn -> Py A) (s s' : Store) (a : A) :
  c s = (s', Return a) -> try_except c h s = (s', Return a).
Proof. intros H. unfold try_except. rewrite H. reflexivity. Qed.

(** The same in general: a rider without a current ride, a pool with a
    match, and a wallet below the fare of the matched ride.  The store
    after the refused request still holds the accepted ride, and its
    driver is unavailable. *)
Lemma request_ride_unaffordable (s : Store) (self : rider_ref)
    (ride_sharing : RideSharing) (destination requested : string)
    (entropy : N) (now : datetime) (me : Rider.t)
    (ds0 : list (driver_ref * Driver.t)) first rest (v : Vehicle) :
  riders s !! self = Some me ->
  Rider.current_ride me = None ->
  snapshot s (rs_drivers ride_sharing) ds0 ->
  List.filter (matches requested) ds0 = first :: rest ->
  let best := max_by (fun p => Driver.average_rating (snd p)) first rest in
  Driver.vehicle (snd best) = Some v ->
  let r := matched_ride (Rider.current_location me) destination v entropy in
  (Rider.wallet me < Ride.estimated_fare r)%Qc ->
  request_ride self ride_sharing destination requested entropy now s
  = (mkStore (riders s)
       (<[fst best := Driver.set_is_available false (snd best)]> (drivers s))
       (rides s ++ [accepted_ride (fst best) now r]),
     Return None).
Proof.
  intros Hme Hcur Hsnap0 Hf best Hv r Hlt.
  pose proof (snapshot_filter s (fun p => Driver.is_available (snd p)) _ _ Hsnap0)
    as Hsnap.
  assert (Hf' : List.filter (fun p => has_vehicle_type requested (snd p))
                  (List.filter (fun p => Driver.is_available (snd p)) ds0)
                = first :: rest).
  { rewrite filter_filter. exact Hf. }
  assert (Hbin : In best ds0).
  { destruct (max_by_split (fun p => Driver.average_rating (snd p)) first rest)
      as (f1 & f2 & Hsplit & _). fold best in Hsplit.
    assert (H : In best (List.filter (matches requested) ds0)).
    { rewrite Hf, Hsplit. apply in_elt. }
    apply filter_In in H. tauto. }
  pose proof (snapshot_lookup _ _ _ _ Hsnap0 Hbin) as Hbest.
  unfold request_ride. apply try_except_return.
  step. rewrite Hcur. step.
  erewrite bind_run; [|apply RideMatching_init_run; exact Hsnap0].
  erewrite bind_run;
    [|eapply (find_driver_some s (mkRideMatching _)
                (mkRideRequest self destination) requested
                entropy now _ Hsnap first rest me v Hf' Hme Hv Hbest)].
  cbn [rq_end_location]. fold best r.
  erewrite (bind_run (get_ride _));
    [|apply get_ride_run; cbn [rides]; apply list_lookup_middle; reflexivity].
  erewrite (bind_run (get_rider _)); [|apply get_rider_run; exact Hme].
  apply geb_false in Hlt. cbn [accepted_ride Ride.set_driver_field
    Ride.set_start_time Ride.estimated_fare] in *.
  rewrite Hlt. reflexivity.
Qed.

(** * Money is moved, not made *)

Lemma sum_by_cons {A} (f : A -> Qc) (a : A) (l : list A) :
  sum_by f (a :: l) = (f a + sum_by f l)%Qc.
Proof. reflexivity. Qed.

Lemma sum_by_insert {A} (f : A -> Qc) (l : list A) (i : nat) (x y : A) :
  l !! i = Some x ->
  sum_by f (<[i := y]> l) = (sum_by f l - f x + f y)%Qc.
Proof.
  revert i. induction l as [|a l IH]; intros i H; [discriminate|].
  destruct i as [|i].
  - injection H as ->. change (<[0%nat := y]> (x :: l)) with (y :: l).
    rewrite !sum_by_cons. ring.
  - change (<[S i := y]> (a :: l)) with (a :: <[i := y]> l).
    rewrite !sum_by_cons, (IH i H). ring.
Qed.

(** X1.  Completing a ride whose rider and driver are bound leaves the
    sum of all wallets as it was, whether the call returns or raises
    on a ride that was never started. *)
Theorem completion_conserves_money (s : Store) (ride : ride_ref) (r : Ride.t)
    (now : datetime) (x : rider_ref) (o : Rider.t) (d : driver_ref)
    (dv : Driver.t) :
  rides s !! ride = Some r ->
  Ride.rider r = Some x -> Ride.driver r = Some d ->
  riders s !! x = Some o -> drivers s !! d = Some dv ->
  exists s' out,
    reach_destination d ride now s = (s', out)
    /\ total_money s' = total_money s.
Proof.
  intros Hride Hrider Hdriver Ho Hdv.
  assert (E : forall w1 w2 a b f : Qc,
            (a - w1 + (w1 - f) + (b - w2 + (w2 + f)) = a + b)%Qc)
    by (intros; ring).
  destruct (Ride.start_time r) as [t|] eqn:Ht.
  - do 2 eexists. split.
    + eapply reach_destination_run; eauto.
    + unfold total_money. cbn [riders drivers].
      rewrite (sum_by_insert _ _ _ _ _ Ho), (sum_by_insert _ _ _ _ _ Hdv).
      cbn. apply E.
  - do 2 eexists. split.
    + unfold reach_destination. erewrite bind_raise; [reflexivity|].
      eapply end_ride_not_started; eauto.
    + unfold total_money. cbn [riders drivers].
      rewrite (sum_by_insert _ _ _ _ _ Ho), (sum_by_insert _ _ _ _ _ Hdv).
      cbn. apply E.
Qed.

Lemma completion_conserves_money_witness :
  exists s' out,
    reach_destination 1%nat 0%nat 160 Demo.store1 = (s', out)
    /\ total_money s' = total_money Demo.store1.
Proof.
  apply (completion_conserves_money Demo.store1 0%nat Demo.ride0 160 0%nat
           (Rider.set_current_ride (Some 0%nat) Demo.gablu) 1%nat
           (Driver.set_is_available false Demo.karim)); reflexivity.
Defined.

(** * More on cancelling *)

Section Cancelling.

Variables (s : Store) (ride : ride_ref) (r : Ride.t) (now : datetime).
Variables (cancelled_by : string) (x : rider_ref) (o : Rider.t).
Hypothesis Hride : rides s !! ride = Some r.
Hypothesis Hst : Ride.status_of r = Ride.InProgress.
Hypothesis Hrider : Ride.rider r = Some x.
Hypothesis Ho : riders s !! x = Some o.

Lemma cancel_ride_run_bound (d : driver_ref) (dv : Driver.t) :
  Ride.driver r = Some d -> drivers s !! d = Some dv ->
  cancel_ride ride cancelled_by now s
  = (mkStore
       (if fee_charged cancelled_by o r
        then <[x := Rider.set_wallet (Rider.wallet o - Ride.cancellation_fee r)%Qc o]> (riders s)
        else riders s)
       (<[d := Driver.set_is_available true
                 (if fee_charged cancelled_by o r
                  then Driver.set_wallet (Driver.wallet dv + Ride.cancellation_fee r)%Qc dv
                  else dv)]> (drivers s))
       (<[ride := ride_after_cancel now r]> (rides s)),
     Return None).
Proof.
  intros Hd Hdv. apply status_in_progress in Hst as [Hc1 Hc2].
  unfold cancel_ride, fee_charged. step. rewrite Hc1, Hc2. do 2 step.
  cbn [Ride.set_is_cancelled Ride.set_end_time Ride.rider Ride.driver
       Ride.cancellation_fee].
  rewrite Hd.
  destruct (String.eqb cancelled_by "rider"); cbn [andb].
  - rewrite Hrider. unfold attr_of. repeat step.
    destruct (PyNum.geb (Rider.wallet o) (Ride.cancellation_fee r));
      repeat step; unfold ret; f_equal; same_store.
  - repeat step. unfold ret. f_equal. same_store.
Qed.

Lemma cancel_ride_run_unbound :
  Ride.driver r = None ->
  cancel_ride ride cancelled_by now s
  = (mkStore
       (if fee_charged cancelled_by o r
        then <[x := Rider.set_wallet (Rider.wallet o - Ride.cancellation_fee r)%Qc o]> (riders s)
        else riders s)
       (drivers s)
       (<[ride := ride_after_cancel now r]> (rides s)),
     Return None).
Proof.
  intros Hd. apply status_in_progress in Hst as [Hc1 Hc2].
  unfold cancel_ride, fee_charged. step. rewrite Hc1, Hc2. do 2 step.
  cbn [Ride.set_is_cancelled Ride.set_end_time Ride.rider Ride.driver
       Ride.cancellation_fee].
  rewrite Hd.
  destruct (String.eqb cancelled_by "rider"); cbn [andb].
  - rewrite Hrider. unfold attr_of. repeat step.
    destruct (PyNum.geb (Rider.wallet o) (Ride.cancellation_fee r));
      repeat step; unfold ret; f_equal; same_store.
  - repeat step. unfold ret. f_equal. same_store.
Qed.

End Cancelling.

(** X2.  Cancelling an in-progress ride that has a driver leaves the
    sum of all wallets as it was, whoever cancels and whatever the
    rider has. *)
Theorem cancellation_conserves_money (s : Store) (ride : ride_ref)
    (r : Ride.t) (now : datetime) (cancelled_by : string) (x : rider_ref)
    (o : Rider.t) (d : driver_ref) (dv : Driver.t) :
  rides s !! ride = Some r -> Ride.status_of r = Ride.InProgress ->
  Ride.rider r = Some x -> riders s !! x = Some o ->
  Ride.driver r = Some d -> drivers s !! d = Some dv ->
  exists s',
    cancel_ride ride cancelled_by now s = (s', Return None)
    /\ total_money s' = total_money s.
Proof.
  intros Hride Hst Hrider Ho Hd Hdv. eexists. split.
  - eapply cancel_ride_run_bound; eauto.
  - unfold total_money. cbn [riders drivers].
    rewrite (sum_by_insert _ _ _ _ _ Hdv).
    destruct (fee_charged cancelled_by o r).
    + rewrite (sum_by_insert _ _ _ _ _ Ho). cbn. ring.
    + cbn. ring.
Qed.

Lemma cancellation_conserves_money_witness :
  exists s',
    cancel_ride 0%nat "rider" 130 Demo.store1 = (s', Return None)
    /\ total_money s' = total_money Demo.store1.
Proof.
  apply (cancellation_conserves_money Demo.store1 0%nat Demo.ride0 130 "rider"
           0%nat (Rider.set_current_ride (Some 0%nat) Demo.gablu) 1%nat
           (Driver.set_is_available false Demo.karim)); reflexivity.
Defined.

(** X3.  When the rider cancels a ride that has no driver and can pay
    the fee, the fee is taken from the rider and given to nobody: the
    sum of all wallets drops by the fee. *)
Theorem cancellation_fee_without_driver_is_lost (s : Store) (ride : ride_ref)
    (r : Ride.t) (now : datetime) (x : rider_ref) (o : Rider.t) :
  rides s !! ride = Some r -> Ride.status_of r = Ride.InProgress ->
  Ride.rider r = Some x -> riders s !! x = Some o ->
  Ride.driver r = None ->
  (Ride.cancellation_fee r <= Rider.wallet o)%Qc ->
  exists s' o',
    cancel_ride ride "rider" now s = (s', Return None)
    /\ riders s' !! x = Some o'
    /\ Rider.wallet o' = (Rider.wallet o - Ride.cancellation_fee r)%Qc
    /\ drivers s' = drivers s
    /\ total_money s' = (total_money s - Ride.cancellation_fee r)%Qc.
Proof.
  intros Hride Hst Hrider Ho Hd Hfee. do 2 eexists. split.
  - eapply cancel_ride_run_unbound; eauto.
  - assert (E : fee_charged "rider" o r = true).
    { unfold fee_charged. cbn. apply geb_spec. exact Hfee. }
    rewrite E. cbn [riders drivers].
    split; [apply list_lookup_insert_eq; eapply lookup_lt_Some; eauto|].
    split; [reflexivity|]. split; [reflexivity|].
    unfold total_money. cbn [riders drivers].
    rewrite (sum_by_insert _ _ _ _ _ Ho). cbn. ring.
Qed.

Lemma cancellation_fee_without_driver_is_lost_witness :
  exists s' o',
    cancel_ride 0%nat "rider" 130
      (mkStore [Demo.gablu] [] [Ride.set_rider (Some 0%nat) Demo.ride0_new])
    = (s', Return None)
    /\ riders s' !! 0%nat = Some o'
    /\ Rider.wallet o'
       = (Rider.wallet Demo.gablu
          - Ride.cancellation_fee (Ride.set_rider (Some 0%nat) Demo.ride0_new))%Qc
    /\ drivers s' = []
    /\ total_money s'
       = (total_money (mkStore [Demo.gablu] [] [Ride.set_rider (Some 0%nat) Demo.ride0_new])
          - Ride.cancellation_fee (Ride.set_rider (Some 0%nat) Demo.ride0_new))%Qc.
Proof.
  apply (cancellation_fee_without_driver_is_lost
           (mkStore [Demo.gablu] [] [Ride.set_rider (Some 0%nat) Demo.ride0_new])
           0%nat (Ride.set_rider (Some 0%nat) Demo.ride0_new) 130 0%nat Demo.gablu);
    try reflexivity.
  vm_compute. discriminate.
Defined.

(** X4.  A ride is cancelled once: after a cancellation, cancelling
    again, by anyone, answers [False] and changes nothing. *)
Theorem second_cancel_is_refused (s : Store) (ride : ride_ref) (r : Ride.t)
    (now later : datetime) (first_by second_by : string) (x : rider_ref)
    (o : Rider.t) :
  rides s !! ride = Some r -> Ride.status_of r = Ride.InProgress ->
  Ride.rider r = Some x -> riders s !! x = Some o ->
  (forall d, Ride.driver r = Some d -> is_Some (drivers s !! d)) ->
  exists s',
    cancel_ride ride first_by now s = (s', Return None)
    /\ cancel_ride ride second_by later s' = (s', Return (Some false)).
Proof.
  intros Hride Hst Hrider Ho Hdrv.
  assert (Hterm : forall s', rides s' !! ride = Some (ride_after_cancel now r) ->
            cancel_ride ride second_by later s' = (s', Return (Some false))).
  { intros s' H. eapply cancel_terminal; [exact H|]. discriminate. }
  destruct (Ride.driver r) as [d|] eqn:Hd.
  - destruct (Hdrv d eq_refl) as [dv Hdv]. eexists. split.
    + eapply cancel_ride_run_bound; eauto.
    + apply Hterm. cbn [rides]. apply list_lookup_insert_eq.
      eapply lookup_lt_Some; eauto.
  - eexists. split.
    + eapply cancel_ride_run_unbound; eauto.
    + apply Hterm. cbn [rides]. apply list_lookup_insert_eq.
      eapply lookup_lt_Some; eauto.
Qed.

Lemma second_cancel_is_refused_witness :
  exists s',
    cancel_ride 0%nat "rider" 130 Demo.store1 = (s', Return None)
    /\ cancel_ride 0%nat "driver" 140 s' = (s', Return (Some false)).
Proof.
  apply (second_cancel_is_refused Demo.store1 0%nat Demo.ride0 130 140
           "rider" "driver" 0%nat
           (Rider.set_current_ride (Some 0%nat) Demo.gablu)); try reflexivity.
  intros d [= <-]. eexists. reflexivity.
Defined.

(** * Completing what is not ready *)

(** X5.  Completing a ride that was never started raises a
    [TypeError], but only after the fare has been moved and the rider's
    current ride cleared; the driver's count of rides and availability
    stay as they were. *)
Theorem completing_unstarted_ride_raises_after_payment (s : Store)
    (ride : ride_ref) (r : Ride.t) (now : datetime) (x : rider_ref)
    (o : Rider.t) (d : driver_ref) (dv : Driver.t) :
  rides s !! ride = Some r -> Ride.start_time r = None ->
  Ride.rider r = Some x -> Ride.driver r = Some d ->
  riders s !! x = Some o -> drivers s !! d = Some dv ->
  exists s' o' dv' r',
    reach_destination d ride now s = (s', Raise TypeError)
    /\ riders s' !! x = Some o' /\ drivers s' !! d = Some dv'
    /\ rides s' !! ride = Some r'
    /\ Rider.wallet o' = (Rider.wallet o - Ride.estimated_fare r)%Qc
    /\ Rider.current_ride o' = None
    /\ Driver.wallet dv' = (Driver.wallet dv + Ride.estimated_fare r)%Qc
    /\ Driver.total_rides dv' = Driver.total_rides dv
    /\ Driver.is_available dv' = Driver.is_available dv
    /\ Ride.is_completed r' = true.
Proof.
  intros Hride Ht Hrider Hdriver Ho Hdv. do 4 eexists. split.
  - unfold reach_destination. erewrite bind_raise; [reflexivity|].
    eapply end_ride_not_started; eauto.
  - cbn [riders drivers rides].
    split; [apply list_lookup_insert_eq; eapply lookup_lt_Some; eauto|].
    split; [apply list_lookup_insert_eq; eapply lookup_lt_Some; eauto|].
    split; [apply list_lookup_insert_eq; eapply lookup_lt_Some; eauto|].
    repeat split.
Qed.

Lemma completing_unstarted_ride_raises_after_payment_witness :
  exists s' o' dv' r',
    reach_destination 0%nat 0%nat 160
      (mkStore [Demo.gablu] [Demo.karim]
         [Ride.set_driver_field (Some 0%nat) (Ride.set_rider (Some 0%nat) Demo.ride0_new)])
    = (s', Raise TypeError)
    /\ riders s' !! 0%nat = Some o' /\ drivers s' !! 0%nat = Some dv'
    /\ rides s' !! 0%nat = Some r'
    /\ Rider.wallet o'
       = (Rider.wallet Demo.gablu
          - Ride.estimated_fare
              (Ride.set_driver_field (Some 0%nat)
                 (Ride.set_rider (Some 0%nat) Demo.ride0_new)))%Qc
    /\ Rider.current_ride o' = None
    /\ Driver.wallet dv'
       = (Driver.wallet Demo.karim
          + Ride.estimated_fare
              (Ride.set_driver_field (Some 0%nat)
                 (Ride.set_rider (Some 0%nat) Demo.ride0_new)))%Qc
    /\ Driver.total_rides dv' = Driver.total_rides Demo.karim
    /\ Driver.is_available dv' = Driver.is_available Demo.karim
    /\ Ride.is_completed r' = true.
Proof.
  apply (completing_unstarted_ride_raises_after_payment
           (mkStore [Demo.gablu] [Demo.karim]
              [Ride.set_driver_field (Some 0%nat)
                 (Ride.set_rider (Some 0%nat) Demo.ride0_new)])
           0%nat
           (Ride.set_driver_field (Some 0%nat)
              (Ride.set_rider (Some 0%nat) Demo.ride0_new))
           160 0%nat Demo.gablu 0%nat Demo.karim); reflexivity.
Defined.

(** * The running average is the mean *)






(** * Requests *)

Section Requesting.

Variables (s : Store) (self : rider_ref) (ride_sharing : RideSharing).
Variables (destination requested : string) (entropy : N) (now : datetime).
Variables (me : Rider.t) (ds : list (driver_ref * Driver.t)).
Hypothesis Hme : riders s !! self = Some me.
Hypothesis Hsnap : snapshot s (rs_drivers ride_sharing) ds.

Lemma request_ride_active (c : ride_ref) (r : Ride.t) :
  Rider.current_ride me = Some c -> rides s !! c = Some r ->
  Ride.status_of r = Ride.InProgress ->
  request_ride self ride_sharing destination requested entropy now s
  = (s, Return None).
Proof.
  intros Hc Hr Hst. apply status_in_progress in Hst as [H1 H2].
  unfold request_ride. apply try_except_return.
  step. rewrite Hc. do 3 step. rewrite H1, H2. reflexivity.
Qed.

(** The test for an active ride lets the rider through. *)
Lemma request_ride_guard {A} (k : bool -> Py A) :
  no_active_ride s me ->
  bind (match Rider.current_ride me with
        | None => ret false
        | Some c =>
            let* r := get_ride c in
            ret (negb (Ride.is_completed r) && negb (Ride.is_cancelled r))
        end) k s
  = k false s.
Proof.
  unfold no_active_ride. destruct (Rider.current_ride me) as [c|].
  - intros (r & Hr & Hst). do 3 step.
    destruct (Ride.is_completed r) eqn:E1; [reflexivity|].
    destruct (Ride.is_cancelled r) eqn:E2; [reflexivity|].
    exfalso. apply Hst. apply status_in_progress. auto.
  - intros _. reflexivity.
Qed.


Lemma request_ride_no_match :
  no_active_ride s me -> best_match requested ds = None ->
  request_ride self ride_sharing destination requested entropy now s
  = (s, Return None).
Proof.
  intros Hfree Hnone. unfold request_ride. apply try_except_return.
  step. rewrite (request_ride_guard _ Hfree).
  erewrite bind_run; [|apply RideMatching_init_run; exact Hsnap].
  erewrite bind_run; [|eapply (find_driver_none s (mkRideMatching _))];
    [reflexivity| |].
  - apply (snapshot_filter s (fun p => Driver.is_available (snd p)) _ _ Hsnap).
  - unfold best_match in Hnone. rewrite filter_filter.
    change (fun a : driver_ref * Driver.t =>
              Driver.is_available (snd a) && has_vehicle_type requested (snd a))
      with (matches requested).
    destruct (List.filter (matches requested) ds); [reflexivity|discriminate].
Qed.


End Requesting.

(** X7.  A rider whose current ride is in progress gets no second
    ride: the request answers [None] and nothing changes, no driver is
    looked for. *)
Theorem active_ride_blocks_request (s : Store) (self : rider_ref)
    (ride_sharing : RideSharing) (destination requested : string)
    (entropy : N) (now : datetime) (me : Rider.t) (c : ride_ref)
    (r : Ride.t) :
  riders s !! self = Some me ->
  Rider.current_ride me = Some c -> rides s !! c = Some r ->
  Ride.status_of r = Ride.InProgress ->
  request_ride self ride_sharing destination requested entropy now s
  = (s, Return None).
Proof. intros. eapply request_ride_active; eauto. Qed.

Lemma active_ride_blocks_request_witness :
  request_ride 0%nat Demo.company "Banani" "car" 9%N 120 Demo.store1
  = (Demo.store1, Return None).
Proof.
  apply (active_ride_blocks_request Demo.store1 0%nat Demo.company "Banani"
           "car" 9%N 120 (Rider.set_current_ride (Some 0%nat) Demo.gablu)
           0%nat Demo.ride0); reflexivity.
Defined.

Lemma no_match_in_snapshot (s : Store) (requested : string) l ds :
  snapshot s l ds ->
  (forall x d, In x l -> drivers s !! x = Some d ->
     Driver.is_available d = false \/ has_vehicle_type requested d = false) ->
  best_match requested ds = None.
Proof.
  intros Hsnap Hno. unfold best_match.
  destruct (List.filter (matches requested) ds) as [|p rest] eqn:Hf;
    [reflexivity|].
  assert (Hin : In p (List.filter (matches requested) ds))
    by (rewrite Hf; left; reflexivity).
  apply filter_In in Hin as [Hin Hm].
  pose proof (snapshot_lookup _ _ _ _ Hsnap Hin) as Hp.
  assert (Hl : In (fst p) l).
  { rewrite (snapshot_map_fst _ _ _ Hsnap). apply in_map. exact Hin. }
  unfold matches in Hm. apply andb_true_iff in Hm as [H1 H2].
  destruct (Hno _ _ Hl Hp); congruence.
Qed.

(** X8.  When every driver of the company is busy or has no vehicle of
    the requested type, a rider who could ask gets [None] and nothing
    changes. *)
Theorem request_without_match_changes_nothing (s : Store) (self : rider_ref)
    (ride_sharing : RideSharing) (destination requested : string)
    (entropy : N) (now : datetime) (me : Rider.t) :
  riders s !! self = Some me -> no_active_ride s me ->
  Forall (fun x => is_Some (drivers s !! x)) (rs_drivers ride_sharing) ->
  (forall x d, In x (rs_drivers ride_sharing) -> drivers s !! x = Some d ->
     Driver.is_available d = false \/ has_vehicle_type requested d = false) ->
  request_ride self ride_sharing destination requested entropy now s
  = (s, Return None).
Proof.
  intros Hme Hfree Hvalid Hno.
  destruct (get_drivers_run s _ Hvalid) as (ds & _ & Hsnap).
  eapply request_ride_no_match; eauto.
  eapply no_match_in_snapshot; eauto.
Qed.

Lemma request_without_match_changes_nothing_witness :
  request_ride 1%nat Demo.company "Banani" "bike" 9%N 120 Demo.store1
  = (Demo.store1, Return None).
Proof.
  apply (request_without_match_changes_nothing Demo.store1 1%nat Demo.company
           "Banani" "bike" 9%N 120 Demo.rina).
  - reflexivity.
  - exact I.
  - repeat constructor; eexists; reflexivity.
  - intros x d [<-|[<-|[<-|[]]]] Hd; cbn in Hd; injection Hd as <-;
      vm_compute; auto.
Defined.





(** * Looking a rider up by name *)




Example demo_find_rider_upper_case :
  find_rider_by_name Demo.company "RINA" Demo.store0
  = (Demo.store0, Return (Some 1%nat)).
Proof. reflexivity. Qed.

Lemma find_rider_in_app_l (s : Store) (l l' : list rider_ref) (name : string)
    (x : rider_ref) :
  Forall (fun x => is_Some (riders s !! x)) l ->
  In x l -> named s name x ->
  exists y,
    In y l /\ named s name y
    /\ find_rider_in (l ++ l') name s = (s, Return (Some y))
    /\ find_rider_in l name s = (s, Return (Some y)).
Proof.
  induction l as [|h l IH]; intros Hvalid Hin Hx; [destruct Hin|].
  apply Forall_cons in Hvalid as [[o Ho] Hl].
  destruct (String.eqb_spec (PyStr.lower (Rider.name o)) (PyStr.lower name))
    as [E|E].
  - exists h. split; [left; reflexivity|]. split; [exists o; auto|].
    apply String.eqb_eq in E.
    split; cbn [find_rider_in app]; step; rewrite E; reflexivity.
  - assert (Hh : ~ named s name h).
    { intros (o' & Ho' & E'). rewrite Ho in Ho'. injection Ho' as <-. auto. }
    destruct Hin as [->|Hin]; [contradiction|].
    destruct (IH Hl Hin Hx) as (y & Hy & Hny & Hrun & Hrun').
    exists y. split; [right; exact Hy|]. split; [exact Hny|].
    apply String.eqb_neq in E.
    split; cbn [find_rider_in app]; step; rewrite E; assumption.
Qed.

(** X12.  Names are not kept unique, and the lookup stops at the first
    match: once a rider is registered under a name that a registered
    rider already has, letter case aside, looking that name up still
    gives an earlier rider, never the new one. *)
Theorem second_rider_of_a_name_is_never_found (s : Store)
    (ride_sharing : RideSharing) (name email nid location : string)
    (initial_amount : Qc) (x : rider_ref) :
  Forall (fun x => is_Some (riders s !! x)) (rs_riders ride_sharing) ->
  In x (rs_riders ride_sharing) -> named s name x ->
  exists s' ride_sharing' new y,
    register_rider ride_sharing name email nid location initial_amount s
    = (s', Return ride_sharing')
    /\ rs_riders ride_sharing' = rs_riders ride_sharing ++ [new]
    /\ riders s' !! new
       = Some (Rider.init name email nid location initial_amount)
    /\ find_rider_by_name ride_sharing' name s' = (s', Return (Some y))
    /\ In y (rs_riders ride_sharing) /\ y <> new.
Proof.
  intros Hvalid Hin Hx.
  set (s' := mkStore (riders s ++ [Rider.init name email nid location initial_amount])
                     (drivers s) (rides s)).
  assert (Hext : forall y o, riders s !! y = Some o -> riders s' !! y = Some o).
  { intros y o Hy. subst s'. cbn [riders]. rewrite lookup_app_l; [exact Hy|].
    eapply lookup_lt_Some; eauto. }
  assert (Hvalid' : Forall (fun x => is_Some (riders s' !! x))
                      (rs_riders ride_sharing)).
  { eapply List.Forall_impl; [|exact Hvalid]. cbn. intros y [o Hy]. eauto. }
  assert (Hx' : named s' name x).
  { destruct Hx as (o & Ho & E). exists o. auto. }
  destruct (find_rider_in_app_l s' _ [length (riders s)] name x Hvalid' Hin Hx')
    as (y & Hy & _ & Hrun & _).
  exists s', (add_rider ride_sharing (length (riders s))), (length (riders s)), y.
  split; [reflexivity|]. split; [reflexivity|].
  split; [subst s'; cbn [riders]; apply list_lookup_middle; reflexivity|].
  split; [exact Hrun|]. split; [exact Hy|].
  rewrite List.Forall_forall in Hvalid. destruct (Hvalid y Hy) as [o Ho].
  apply lookup_lt_Some in Ho. lia.
Qed.

Lemma second_rider_of_a_name_is_never_found_witness :
  exists s' ride_sharing' new y,
    register_rider Demo.company "rina" "rina2@email.com" "999" "Uttara"
                   (PyNum.of_int 50) Demo.store0
    = (s', Return ride_sharing')
    /\ rs_riders ride_sharing' = rs_riders Demo.company ++ [new]
    /\ riders s' !! new
       = Some (Rider.init "rina" "rina2@email.com" "999" "Uttara" (PyNum.of_int 50))
    /\ find_rider_by_name ride_sharing' "rina" s' = (s', Return (Some y))
    /\ In y (rs_riders Demo.company) /\ y <> new.
Proof.
  apply (second_rider_of_a_name_is_never_found Demo.store0 Demo.company
           "rina" "rina2@email.com" "999" "Uttara" (PyNum.of_int 50) 1%nat).
  - repeat constructor; eexists; reflexivity.
  - right. left. reflexivity.
  - eexists. split; reflexivity.
Defined.

(** * Searching drivers by rating *)

Section SortingByRating.

Context {A : Type} (key : A -> Qc).

Lemma insert_desc_by_perm (x : A) (l : list A) :
  Permutation (insert_desc_by key x l) (x :: l).
Proof.
  induction l as [|y l IH]; cbn; [reflexivity|].
  destruct (PyNum.gtb (key y) (key x)); [|reflexivity].
  rewrite IH. apply perm_swap.
Qed.

Lemma insert_desc_by_sorted (x : A) (l : list A) :
  StronglySorted (fun p q => (key q <= key p)%Qc) l ->
  StronglySorted (fun p q => (key q <= key p)%Qc) (insert_desc_by key x l).
Proof.
  induction l as [|y l IH]; cbn; intros Hs.
  - constructor; constructor.
  - apply StronglySorted_inv in Hs as [Hl Hy].
    destruct (PyNum.gtb (key y) (key x)) eqn:E.
    + apply gtb_spec in E. constructor; [apply IH; exact Hl|].
      apply (Permutation_Forall (Permutation_sym (insert_desc_by_perm x l))).
      constructor; [apply Qclt_le_weak; exact E|exact Hy].
    + apply gtb_false in E. constructor.
      * constructor; assumption.
      * constructor; [exact E|].
        eapply List.Forall_impl; [|exact Hy]. cbn. intros z Hz.
        eapply Qcle_trans; eauto.
Qed.

Lemma insert_desc_by_with_rating (k : Qc) (x : A) (l : list A) :
  with_rating key k (insert_desc_by key x l) = with_rating key k (x :: l).
Proof.
  unfold with_rating. induction l as [|y l IH]; [reflexivity|].
  cbn [insert_desc_by]. destruct (PyNum.gtb (key y) (key x)) eqn:E;
    [|reflexivity].
  apply gtb_spec in E. cbn [List.filter] in *. rewrite IH.
  destruct (bool_decide (key x = k)) eqn:Ex, (bool_decide (key y = k)) eqn:Ey;
    try reflexivity.
  apply bool_decide_eq_true in Ex, Ey. rewrite Ex, Ey in E.
  exfalso. exact (Qclt_not_eq _ _ E eq_refl).
Qed.

Lemma sort_reverse_by_perm (l : list A) : Permutation (sort_reverse_by key l) l.
Proof.
  induction l as [|x l IH]; cbn; [reflexivity|].
  rewrite insert_desc_by_perm. constructor. exact IH.
Qed.

Lemma sort_reverse_by_sorted (l : list A) :
  StronglySorted (fun p q => (key q <= key p)%Qc) (sort_reverse_by key l).
Proof.
  induction l as [|x l IH]; cbn; [constructor|].
  apply insert_desc_by_sorted. exact IH.
Qed.

Lemma sort_reverse_by_stable (k : Qc) (l : list A) :
  with_rating key k (sort_reverse_by key l) = with_rating key k l.
Proof.
  induction l as [|x l IH]; [reflexivity|].
  cbn [sort_reverse_by foldr]. rewrite insert_desc_by_with_rating.
  unfold with_rating in *. cbn [List.filter]. fold (sort_reverse_by key l).
  rewrite IH. reflexivity.
Qed.

End SortingByRating.

(** X13.  The search by rating gives the drivers whose average rating
    is at least the threshold, each once, the best rated first and
    drivers of equal rating in the order of registration; drivers
    without any rating are searched like the others.  The store is
    only read. *)
Theorem search_by_rating_is_a_sorted_filter (s : Store) (self : RideSharing)
    (min_rating : Qc) :
  Forall (fun x => is_Some (drivers s !! x)) (rs_drivers self) ->
  exists ds sorted,
    snapshot s (rs_drivers self) ds
    /\ search_drivers_by_rating self min_rating s = (s, Return (map fst sorted))
    /\ Permutation sorted
         (List.filter (fun p => bool_decide (min_rating <= rating_of p)%Qc) ds)
    /\ StronglySorted (fun p q => (rating_of q <= rating_of p)%Qc) sorted
    /\ (forall k, with_rating rating_of k sorted
                  = with_rating rating_of k
                      (List.filter (fun p => bool_decide (min_rating <= rating_of p)%Qc) ds)).
Proof.
  intros Hvalid. destruct (get_drivers_run s _ Hvalid) as (ds & Hrun & Hsnap).
  exists ds.
  exists (sort_reverse_by rating_of
            (List.filter (fun p => bool_decide (min_rating <= rating_of p)%Qc) ds)).
  split; [exact Hsnap|]. split.
  - unfold search_drivers_by_rating. erewrite bind_run; [|exact Hrun].
    change (fun p : driver_ref * Driver.t =>
              PyNum.geb (Driver.average_rating (snd p)) min_rating)
      with (fun p : driver_ref * Driver.t =>
              bool_decide (min_rating <= rating_of p)%Qc).
    destruct (List.filter _ ds); reflexivity.
  - split; [apply sort_reverse_by_perm|].
    split; [apply sort_reverse_by_sorted|].
    intros k. apply sort_reverse_by_stable.
Qed.

Lemma search_by_rating_is_a_sorted_filter_witness :
  exists ds sorted,
    snapshot Demo.store0 (rs_drivers Demo.company) ds
    /\ search_drivers_by_rating Demo.company (Demo.q 45 10) Demo.store0
       = (Demo.store0, Return (map fst sorted))
    /\ Permutation sorted
         (List.filter (fun p => bool_decide (Demo.q 45 10 <= rating_of p)%Qc) ds)
    /\ StronglySorted (fun p q => (rating_of q <= rating_of p)%Qc) sorted
    /\ (forall k, with_rating rating_of k sorted
                  = with_rating rating_of k
                      (List.filter (fun p => bool_decide (Demo.q 45 10 <= rating_of p)%Qc) ds)).
Proof.
  apply (search_by_rating_is_a_sorted_filter Demo.store0 Demo.company (Demo.q 45 10)).
  repeat constructor; eexists; reflexivity.
Defined.

Example demo_search_by_rating :
  search_drivers_by_rating Demo.company (Demo.q 45 10) Demo.store0
  = (Demo.store0, Return [1; 0]%nat).
Proof. vm_compute. reflexivity. Qed.

(** * Searching riders by a part of the name *)






Example demo_search_by_name :
  search_riders_by_name Demo.company "AB" Demo.store0
  = (Demo.store0, Return [0%nat]).
Proof. reflexivity. Qed.

(** * Cancelling from the menu *)

(** X15.  Cancelling from the menu, confirmed with y in either case,
    cancels the rider's current ride at the rider's expense, and leaves
    it the rider's current ride; being cancelled, it does not stand in
    the way of a new request. *)
Theorem menu_cancel_keeps_current_ride (s : Store) (ride_sharing : RideSharing)
    (rider_name confirm : string) (now : datetime) (x : rider_ref)
    (me : Rider.t) (c : ride_ref) (r : Ride.t) :
  find_rider_by_name ride_sharing rider_name s = (s, Return (Some x)) ->
  PyStr.lower confirm = "y" ->
  riders s !! x = Some me -> Rider.current_ride me = Some c ->
  rides s !! c = Some r -> Ride.status_of r = Ride.InProgress ->
  Ride.rider r = Some x ->
  (forall d, Ride.driver r = Some d -> is_Some (drivers s !! d)) ->
  exists s' me' r',
    Main.cancel_ride ride_sharing rider_name confirm now s = (s', Return tt)
    /\ riders s' !! x = Some me' /\ rides s' !! c = Some r'
    /\ Rider.current_ride me' = Some c
    /\ Ride.status_of r' = Ride.Cancelled
    /\ Rider.wallet me'
       = (if PyNum.geb (Rider.wallet me) (Ride.cancellation_fee r)
          then Rider.wallet me - Ride.cancellation_fee r
          else Rider.wallet me)%Qc
    /\ no_active_ride s' me'.
Proof.
  intros Hfind Hy Hme Hcur Hr Hst Hrider Hdrv.
  assert (Hrun : forall s1, cancel_ride c "rider" now s = (s1, Return None) ->
            Main.cancel_ride ride_sharing rider_name confirm now s
            = (s1, Return tt)).
  { intros s1 H. unfold Main.cancel_ride.
    erewrite bind_run; [|exact Hfind]. cbv beta iota. step.
    rewrite Hcur, Hy. cbv beta iota.
    change (String.eqb "y" "y") with true. cbv iota.
    erewrite bind_run; [|exact H]. reflexivity. }
  assert (Hfee : fee_charged "rider" me r
                 = PyNum.geb (Rider.wallet me) (Ride.cancellation_fee r))
    by reflexivity.
  assert (Hlen : (c < length (rides s))%nat) by (eapply lookup_lt_Some; eauto).
  assert (Hx : (x < length (riders s))%nat) by (eapply lookup_lt_Some; eauto).
  assert (Hfree : forall s1 m1,
            Rider.current_ride m1 = Some c ->
            rides s1 = <[c := ride_after_cancel now r]> (rides s) ->
            no_active_ride s1 m1).
  { intros s1 m1 H1 H2. unfold no_active_ride. rewrite H1, H2. eexists. split.
    - apply list_lookup_insert_eq. exact Hlen.
    - discriminate. }
  assert (Hcancel : exists s1,
            cancel_ride c "rider" now s = (s1, Return None)
            /\ riders s1
               = (if fee_charged "rider" me r
                  then <[x := Rider.set_wallet
                                (Rider.wallet me - Ride.cancellation_fee r)%Qc me]>
                         (riders s)
                  else riders s)
            /\ rides s1 = <[c := ride_after_cancel now r]> (rides s)).
  { destruct (Ride.driver r) as [d|] eqn:Hd.
    - destruct (Hdrv d eq_refl) as [dv Hdv]. eexists. split.
      + eapply cancel_ride_run_bound; eauto.
      + split; reflexivity.
    - eexists. split.
      + eapply cancel_ride_run_unbound; eauto.
      + split; reflexivity. }
  destruct Hcancel as (s1 & Hc & Hriders & Hrides).
  rewrite Hfee in Hriders.
  destruct (PyNum.geb (Rider.wallet me) (Ride.cancellation_fee r)).
  - exists s1, (Rider.set_wallet (Rider.wallet me - Ride.cancellation_fee r)%Qc me),
      (ride_after_cancel now r).
    split; [apply Hrun; exact Hc|]. rewrite Hriders, Hrides.
    split; [apply list_lookup_insert_eq; exact Hx|].
    split; [apply list_lookup_insert_eq; exact Hlen|].
    split; [exact Hcur|]. split; [reflexivity|]. split; [reflexivity|].
    apply Hfree; [exact Hcur|exact Hrides].
  - exists s1, me, (ride_after_cancel now r).
    split; [apply Hrun; exact Hc|]. rewrite Hriders, Hrides.
    split; [exact Hme|].
    split; [apply list_lookup_insert_eq; exact Hlen|].
    split; [exact Hcur|]. split; [reflexivity|]. split; [reflexivity|].
    apply Hfree; [exact Hcur|exact Hrides].
Qed.

Lemma menu_cancel_keeps_current_ride_witness :
  exists s' me' r',
    Main.cancel_ride Demo.company "gablu" "Y" 130 Demo.store1 = (s', Return tt)
    /\ riders s' !! 0%nat = Some me' /\ rides s' !! 0%nat = Some r'
    /\ Rider.current_ride me' = Some 0%nat
    /\ Ride.status_of r' = Ride.Cancelled
    /\ Rider.wallet me'
       = (if PyNum.geb (Rider.wallet (Rider.set_current_ride (Some 0%nat) Demo.gablu))
                       (Ride.cancellation_fee Demo.ride0)
          then Rider.wallet (Rider.set_current_ride (Some 0%nat) Demo.gablu)
               - Ride.cancellation_fee Demo.ride0
          else Rider.wallet (Rider.set_current_ride (Some 0%nat) Demo.gablu))%Qc
    /\ no_active_ride s' me'.
Proof.
  apply (menu_cancel_keeps_current_ride Demo.store1 Demo.company "gablu" "Y"
           130 0%nat (Rider.set_current_ride (Some 0%nat) Demo.gablu) 0%nat
           Demo.ride0); try reflexivity.
  intros d [= <-]. eexists. reflexivity.
Defined.

(** * Saving and loading *)

Lemma riders_data_run (s : Store) refs os :
  riders_are s refs os ->
  DataManager.riders_data refs s = (s, Return (map DataManager.rider_dict os)).
Proof.
  induction 1 as [|x o refs os Hx _ IH]; cbn [DataManager.riders_data]; [reflexivity|].
  erewrite bind_run; [|apply get_rider_run; exact Hx].
  erewrite bind_run; [|exact IH]. reflexivity.
Qed.

Lemma drivers_data_run (s : Store) refs os :
  drivers_are s refs os ->
  DataManager.drivers_data refs s = (s, Return (map DataManager.driver_dict os)).
Proof.
  induction 1 as [|x o refs os Hx _ IH]; cbn [DataManager.drivers_data]; [reflexivity|].
  erewrite bind_run; [|apply get_driver_run; exact Hx].
  erewrite bind_run; [|exact IH]. reflexivity.
Qed.

Lemma all_rides_run (s : Store) refs os :
  riders_are s refs os ->
  DataManager.all_rides refs s
  = (s, Return (concat (map Rider.ride_history os))).
Proof.
  induction 1 as [|x o refs os Hx _ IH]; cbn [DataManager.all_rides]; [reflexivity|].
  erewrite bind_run; [|apply get_rider_run; exact Hx].
  erewrite bind_run; [|exact IH]. reflexivity.
Qed.

Lemma histories_rides (s : Store) refs os :
  riders_are s refs os -> histories_in_store s refs ->
  Forall (ride_in_store s) (concat (map Rider.ride_history os)).
Proof.
  intros H. induction H as [|x o refs os Hx _ IH]; intros Hh; cbn; [constructor|].
  apply Forall_app. split.
  - apply List.Forall_forall. intros ride Hin.
    apply (Hh x o ride); [left; reflexivity|exact Hx|exact Hin].
  - apply IH. intros x' o' ride Hin. apply Hh. right. exact Hin.
Qed.

(** Writing the rides raises or returns, and leaves the store alone. *)
Lemma rides_data_safe (s : Store) l :
  Forall (ride_in_store s) l ->
  (exists data, DataManager.rides_data l s = (s, Return data))
  \/ (exists e, DataManager.rides_data l s = (s, Raise e)).
Proof.
  induction 1 as [|ride l (r & Hr & Hrider & Hdriver) _ IH];
    cbn [DataManager.rides_data].
  - left. eexists. reflexivity.
  - erewrite bind_run; [|apply get_ride_run; exact Hr].
    destruct (Ride.is_completed r); [|exact IH].
    destruct (Ride.vehicle r) as [v|]; cbn [attr_of].
    2:{ right. eexists. reflexivity. }
    rewrite bind_ret.
    assert (Hx : exists n, DataManager.rider_name_of (Ride.rider r) s = (s, Return n)).
    { destruct (Ride.rider r) as [y|]; cbn [DataManager.rider_name_of].
      - destruct (Hrider y eq_refl) as [o Ho]. eexists.
        erewrite bind_run; [|apply get_rider_run; exact Ho]. reflexivity.
      - eexists. reflexivity. }
    assert (Hd : exists n, DataManager.driver_name_of (Ride.driver r) s = (s, Return n)).
    { destruct (Ride.driver r) as [y|]; cbn [DataManager.driver_name_of].
      - destruct (Hdriver y eq_refl) as [o Ho]. eexists.
        erewrite bind_run; [|apply get_driver_run; exact Ho]. reflexivity.
      - eexists. reflexivity. }
    destruct Hx as [n1 Hn1], Hd as [n2 Hn2].
    erewrite bind_run; [|exact Hn1]. erewrite bind_run; [|exact Hn2].
    destruct IH as [[data Hrun]|[e Hrun]].
    + left. erewrite bind_run; [|exact Hrun]. eexists. reflexivity.
    + right. erewrite bind_raise; [|exact Hrun]. eexists. reflexivity.
Qed.

Lemma save_rides_run (s : Store) l disk :
  Forall (ride_in_store s) l ->
  exists saved,
    DataManager.save_rides l disk s = (s, Return saved)
    /\ riders_file (fst saved) = riders_file disk
    /\ drivers_file (fst saved) = drivers_file disk
    /\ company_file (fst saved) = company_file disk.
Proof.
  intros H. unfold DataManager.save_rides, try_except.
  destruct (rides_data_safe s l H) as [[data Hrun]|[e Hrun]].
  - erewrite bind_run; [|exact Hrun]. eexists. split; [reflexivity|].
    repeat split.
  - erewrite bind_raise; [|exact Hrun]. eexists. split; [reflexivity|].
    repeat split.
Qed.

Lemma load_riders_into_run (data : list RiderDict.t) (rs : RideSharing) (s : Store) :
  load_riders_into data rs s
  = (mkStore (riders s ++ map restore_rider data) (drivers s) (rides s),
     Return (mkRideSharing (company_name rs)
               (rs_riders rs ++ seq (length (riders s)) (length data))
               (rs_drivers rs) (rs_total_rides rs))).
Proof.
  revert rs s. induction data as [|d data IH]; intros rs s.
  - cbn. rewrite !app_nil_r. destruct s, rs. reflexivity.
  - cbn [load_riders_into]. erewrite bind_run; [|reflexivity].
    rewrite IH. cbn [riders drivers rides add_rider company_name rs_riders
                     rs_drivers rs_total_rides map length seq].
    rewrite length_app, <- !app_assoc. cbn [length app].
    rewrite Nat.add_1_r. reflexivity.
Qed.

Lemma load_drivers_into_run (data : list DriverDict.t) (rs : RideSharing) (s : Store) :
  load_drivers_into data rs s
  = (mkStore (riders s) (drivers s ++ map restore_driver data) (rides s),
     Return (mkRideSharing (company_name rs) (rs_riders rs)
               (rs_drivers rs ++ seq (length (drivers s)) (length data))
               (rs_total_rides rs))).
Proof.
  revert rs s. induction data as [|d data IH]; intros rs s.
  - cbn. rewrite !app_nil_r. destruct s, rs. reflexivity.
  - cbn [load_drivers_into]. erewrite bind_run; [|reflexivity].
    rewrite IH. cbn [riders drivers rides add_driver company_name rs_riders
                     rs_drivers rs_total_rides map length seq].
    rewrite length_app, <- !app_assoc. cbn [length app].
    rewrite Nat.add_1_r. reflexivity.
Qed.

Lemma restore_rider_dict (o : Rider.t) :
  restore_rider (DataManager.rider_dict o) = reloaded_rider o.
Proof. destruct o. reflexivity. Qed.

Lemma restore_vehicle_dict (v : Vehicle) :
  built_vehicle v -> restore_vehicle (DataManager.vehicle_dict v) = Some v.
Proof.
  intros [H|[H|H]]; rewrite H; reflexivity.
Qed.

Lemma restore_driver_dict (d : Driver.t) :
  (forall v, Driver.vehicle d = Some v -> built_vehicle v) ->
  restore_driver (DataManager.driver_dict d) = reloaded_driver d.
Proof.
  intros H. destruct d as [n e i w l v t a h r k]. cbn in H.
  unfold restore_driver, DataManager.driver_dict. cbn.
  destruct v as [v|].
  - rewrite (restore_vehicle_dict v (H v eq_refl)). reflexivity.
  - reflexivity.
Qed.

(** Saving everything and loading it again, in general. *)
Lemma save_all_then_load (s s0 : Store) (ride_sharing fresh : RideSharing)
    (now : datetime) (disk : Disk) (ros : list Rider.t) (dos : list Driver.t) :
  riders_are s (rs_riders ride_sharing) ros ->
  drivers_are s (rs_drivers ride_sharing) dos ->
  Forall (fun d => forall v, Driver.vehicle d = Some v -> built_vehicle v) dos ->
  histories_in_store s (rs_riders ride_sharing) ->
  exists disk' ok,
    DataManager.save_all ride_sharing now disk s = (s, Return (disk', ok))
    /\ load_saved_data fresh disk' s0
       = (mkStore (riders s0 ++ map reloaded_rider ros)
                  (drivers s0 ++ map reloaded_driver dos) (rides s0),
          Return (mkRideSharing (company_name fresh)
                    (rs_riders fresh ++ seq (length (riders s0)) (length ros))
                    (rs_drivers fresh ++ seq (length (drivers s0)) (length dos))
                    (rs_total_rides ride_sharing))).
Proof.
  intros Hr Hd Hv Hh.
  pose proof (histories_rides s _ _ Hr Hh) as Hall.
  unfold DataManager.save_all.
  erewrite bind_run.
  2:{ unfold DataManager.save_riders. apply try_except_return.
      erewrite bind_run; [|apply riders_data_run; exact Hr]. reflexivity. }
  erewrite bind_run.
  2:{ unfold DataManager.save_drivers. apply try_except_return.
      erewrite bind_run; [|apply drivers_data_run; exact Hd]. reflexivity. }
  cbv zeta. erewrite bind_run; [|apply all_rides_run; exact Hr].
  match goal with
  | |- context [DataManager.save_rides ?l ?d] =>
      destruct (save_rides_run s l d Hall) as ([disk' ok] & Hrun & H1 & H2 & H3)
  end.
  erewrite bind_run; [|exact Hrun].
  cbn [fst snd] in *. eexists _, _. split; [reflexivity|].
  unfold load_saved_data, DataManager.load_company_stats, DataManager.load_riders,
    DataManager.load_drivers.
  rewrite H1, H2, H3. cbn [DataManager.save_company_stats fst riders_file
    drivers_file company_file CompanyDict.total_rides].
  erewrite bind_run; [|apply load_riders_into_run].
  rewrite load_drivers_into_run.
  cbn [riders drivers rides company_name rs_riders rs_drivers rs_total_rides].
  rewrite !length_map, !map_map.
  assert (Hros : map (fun o => restore_rider (DataManager.rider_dict o)) ros
                 = map reloaded_rider ros).
  { apply map_ext. intros o. apply restore_rider_dict. }
  assert (Hdos : map (fun d => restore_driver (DataManager.driver_dict d)) dos
                 = map reloaded_driver dos).
  { apply map_ext_in. intros d Hin. apply restore_driver_dict.
    apply (proj1 (List.Forall_forall _ _) Hv). exact Hin. }
  rewrite Hros, Hdos. reflexivity.
Qed.

(** X16. What [save_all] writes and [load_saved_data] reads back:
    saving a company whose riders and drivers are in the store, whose
    vehicles are as the constructors build them and whose ride
    histories are in the store leaves the store as it was, and loading
    the files into any company appends every rider and every driver, in
    order, as new objects.  A reloaded rider has the saved name, email,
    NID, location, wallet and ratings but no current ride and an empty
    history; a reloaded driver has all the saved fields but an empty
    history; no ride is restored; the company takes the saved number
    of rides and keeps its own name. *)
Theorem save_then_load_restores_people (s s0 : Store)
    (ride_sharing fresh : RideSharing) (now : datetime) (disk : Disk)
    (ros : list Rider.t) (dos : list Driver.t) :
  riders_are s (rs_riders ride_sharing) ros ->
  drivers_are s (rs_drivers ride_sharing) dos ->
  Forall (fun d => forall v, Driver.vehicle d = Some v -> built_vehicle v) dos ->
  histories_in_store s (rs_riders ride_sharing) ->
  exists disk' ok,
    DataManager.save_all ride_sharing now disk s = (s, Return (disk', ok))
    /\ load_saved_data fresh disk' s0
       = (mkStore (riders s0 ++ map reloaded_rider ros)
                  (drivers s0 ++ map reloaded_driver dos) (rides s0),
          Return (mkRideSharing (company_name fresh)
                    (rs_riders fresh ++ seq (length (riders s0)) (length ros))
                    (rs_drivers fresh ++ seq (length (drivers s0)) (length dos))
                    (rs_total_rides ride_sharing))).
Proof. apply save_all_then_load. Qed.

Lemma saved_store_people :
  riders_are Saved.store (rs_riders Saved.company) (riders Saved.store)
  /\ drivers_are Saved.store (rs_drivers Saved.company) (drivers Saved.store)
  /\ Forall (fun d => forall v, Driver.vehicle d = Some v -> built_vehicle v)
       (drivers Saved.store)
  /\ histories_in_store Saved.store (rs_riders Saved.company).
Proof.
  split; [repeat constructor|]. split; [repeat constructor|]. split.
  - apply Forall_cons. split; [intros v [= <-]; left; reflexivity|].
    apply Forall_cons. split; [intros v [= <-]; right; left; reflexivity|].
    apply Forall_cons. split; [intros v [= <-]; right; right; reflexivity|].
    apply Forall_nil_2.
  - intros x o ride Hin Hx Hride.
    destruct Hin as [<-|[<-|[]]]; injection Hx as <-.
    + destruct Hride as [<-|[]]. eexists. split; [reflexivity|].
      split; intros y [= <-]; eexists; reflexivity.
    + destruct Hride.
Qed.

Lemma save_then_load_restores_people_witness :
  exists disk' ok,
    DataManager.save_all Saved.company 200 no_files Saved.store
    = (Saved.store, Return (disk', ok))
    /\ load_saved_data (RideSharing_init "QuickRide Bangladesh") disk'
         (mkStore [] [] [])
       = (mkStore ([] ++ map reloaded_rider (riders Saved.store))
                  ([] ++ map reloaded_driver (drivers Saved.store)) [],
          Return (mkRideSharing "QuickRide Bangladesh"
                    ([] ++ seq 0 (length (riders Saved.store)))
                    ([] ++ seq 0 (length (drivers Saved.store))) 1)).
Proof.
  destruct saved_store_people as (H1 & H2 & H3 & H4).
  exact (save_then_load_restores_people Saved.store (mkStore [] [] [])
           Saved.company (RideSharing_init "QuickRide Bangladesh") 200
           no_files (riders Saved.store) (drivers Saved.store) H1 H2 H3 H4).
Defined.

(** After [clear_all_data], whatever the files held, [load_saved_data]
    adds no rider and no driver, allocates nothing, and sets the
    company's number of rides to 0. *)
Lemma load_after_clear_starts_fresh (disk : Disk)
    (ride_sharing : RideSharing) (s : Store) :
  load_saved_data ride_sharing (DataManager.clear_all_data disk) s
  = (s, Return (mkRideSharing (company_name ride_sharing)
                  (rs_riders ride_sharing) (rs_drivers ride_sharing) 0)).
Proof. reflexivity. Qed.

Lemma snapshot_of_arena (r : list Rider.t) (pre l : list Driver.t) (k : list Ride.t) :
  snapshot (mkStore r (pre ++ l) k) (seq (length pre) (length l))
    (combine (seq (length pre) (length l)) l).
Proof.
  unfold snapshot. revert pre. induction l as [|d l IH]; intros pre; cbn.
  - constructor.
  - constructor.
    + split; [reflexivity|]. cbn. apply list_lookup_middle. reflexivity.
    + specialize (IH (pre ++ [d])).
      rewrite length_app, <- app_assoc in IH. cbn in IH.
      rewrite Nat.add_1_r in IH. exact IH.
Qed.

Lemma filter_available_reloaded (refs : list driver_ref) (dos : list Driver.t) :
  map fst (List.filter (fun p => Driver.is_available (snd p))
             (combine refs (map reloaded_driver dos)))
  = map fst (List.filter (fun p => Driver.is_available (snd p))
               (combine refs dos)).
Proof.
  revert dos. induction refs as [|x refs IH]; intros [|d dos]; cbn; try reflexivity.
  destruct (Driver.is_available d); cbn; rewrite IH; reflexivity.
Qed.

(** X17. A driver who was on a ride when the data was saved is still
    unavailable after a reload into a new company, although the reload
    restores no ride and gives no rider a current ride:
    [get_available_drivers] returns exactly the drivers who were
    available when [save_all] ran. *)
Theorem reload_keeps_busy_drivers_unavailable (s : Store)
    (ride_sharing : RideSharing) (name : string) (now : datetime)
    (disk : Disk) (ros : list Rider.t) (dos : list Driver.t) :
  riders_are s (rs_riders ride_sharing) ros ->
  drivers_are s (rs_drivers ride_sharing) dos ->
  Forall (fun d => forall v, Driver.vehicle d = Some v -> built_vehicle v) dos ->
  histories_in_store s (rs_riders ride_sharing) ->
  exists disk' ok s' company',
    DataManager.save_all ride_sharing now disk s = (s, Return (disk', ok))
    /\ load_saved_data (RideSharing_init name) disk' (mkStore [] [] [])
       = (s', Return company')
    /\ rides s' = []
    /\ Forall (fun o => Rider.current_ride o = None) (riders s')
    /\ get_available_drivers company' s'
       = (s', Return (map fst (List.filter (fun p => Driver.is_available (snd p))
                                 (combine (seq 0 (length dos)) dos)))).
Proof.
  intros Hr Hd Hv Hh.
  destruct (save_all_then_load s (mkStore [] [] []) ride_sharing
              (RideSharing_init name) now disk ros dos Hr Hd Hv Hh)
    as (disk' & ok & Hsave & Hload).
  exists disk', ok. eexists _, _. split; [exact Hsave|].
  split; [exact Hload|]. cbn [riders drivers rides app].
  split; [reflexivity|]. split.
  - apply List.Forall_forall. intros o Hin. apply in_map_iff in Hin as (o' & <- & _).
    reflexivity.
  - unfold get_available_drivers.
    cbn [rs_drivers RideSharing_init app length].
    pose proof (snapshot_of_arena (map reloaded_rider ros) []
                  (map reloaded_driver dos) []) as Hsnap.
    cbn [app length] in Hsnap. rewrite length_map in Hsnap.
    erewrite bind_run; [|apply get_drivers_snapshot; exact Hsnap].
    rewrite filter_available_reloaded. reflexivity.
Qed.

Lemma reload_keeps_busy_drivers_unavailable_witness :
  exists disk' ok s' company',
    DataManager.save_all Demo.company 200 no_files Demo.store1
    = (Demo.store1, Return (disk', ok))
    /\ load_saved_data (RideSharing_init "QuickRide Bangladesh") disk'
         (mkStore [] [] [])
       = (s', Return company')
    /\ rides s' = []
    /\ Forall (fun o => Rider.current_ride o = None) (riders s')
    /\ get_available_drivers company' s'
       = (s', Return (map fst (List.filter (fun p => Driver.is_available (snd p))
                                 (combine (seq 0 (length (drivers Demo.store1)))
                                          (drivers Demo.store1))))).
Proof.
  apply (reload_keeps_busy_drivers_unavailable Demo.store1 Demo.company
           "QuickRide Bangladesh" 200 no_files (riders Demo.store1)
           (drivers Demo.store1)).
  - repeat constructor.
  - repeat constructor.
  - apply Forall_cons. split; [intros v [= <-]; left; reflexivity|].
    apply Forall_cons. split; [intros v [= <-]; right; left; reflexivity|].
    apply Forall_cons. split; [intros v [= <-]; right; right; reflexivity|].
    apply Forall_nil_2.
  - intros x o ride Hin Hx Hride.
    destruct Hin as [<-|[<-|[]]]; injection Hx as <-; destruct Hride.
Defined.

(** Karim, on Gablu's ride in [Demo.store1], is not among the
    available drivers of the reloaded company. *)
Example demo_reloaded_available :
  map fst (List.filter (fun p => Driver.is_available (snd p))
             (combine (seq 0 (length (drivers Demo.store1)))
                      (drivers Demo.store1)))
  = [0; 2]%nat.
Proof. reflexivity. Qed.

(** X18. A driver registered through the menu with choice 1, 2 or 3 is
    a new driver at the end of the company's list, and
    [save_drivers] and [load_saved_data] give back exactly that driver:
    the dictionary written for the new driver restores to the same
    object. *)
Theorem registered_driver_reloads_unchanged (ride_sharing : RideSharing)
    (name email nid location : string) (vehicle_choice : Z)
    (license_plate : string) (s : Store) :
  1 <= vehicle_choice <= 3 ->
  exists d,
    register_driver ride_sharing name email nid location vehicle_choice
      license_plate s
    = (mkStore (riders s) (drivers s ++ [d]) (rides s),
       Return (add_driver ride_sharing (length (drivers s))))
    /\ restore_driver (DataManager.driver_dict d) = d.
Proof.
  intros H. unfold register_driver.
  assert (Hc : vehicle_choice = 1 \/ vehicle_choice = 2 \/ vehicle_choice = 3) by lia.
  destruct Hc as [-> | [-> | ->]]; cbn [Z.eqb Pos.eqb]; eexists; (split; [reflexivity|]);
    apply restore_driver_dict; intros v [= <-].
  - left. reflexivity.
  - right. left. reflexivity.
  - right. right. reflexivity.
Qed.

Lemma registered_driver_reloads_unchanged_witness :
  exists d,
    register_driver Demo.company "Salma" "salma@email.com" "654" "Mirpur" 1
      "DHK-3456" Demo.store0
    = (mkStore (riders Demo.store0) (drivers Demo.store0 ++ [d]) (rides Demo.store0),
       Return (add_driver Demo.company (length (drivers Demo.store0))))
    /\ restore_driver (DataManager.driver_dict d) = d.
Proof.
  apply (registered_driver_reloads_unchanged Demo.company "Salma"
           "salma@email.com" "654" "Mirpur" 1 "DHK-3456" Demo.store0).
  lia.
Defined.
